(** * fastapi_soap.wsdl: XSD element and WSDL generation

    A shallow embedding of [src/fastapi_soap/wsdl.py] and the properties
    of its two routines, [generate_xsd_element] and [generate_wsdl].

    Python objects are modelled by the observations the module makes of
    them: an [xml.etree] element is a tree of tag, attribute dictionary
    (insertion ordered), children and text; a pydantic-xml model class is
    a record of [__name__], [__xml_tag__], the ["tag"] entry of
    [model_config] and [model_fields]; classes live in a class table and
    are referred to by identity, so that a model may mention itself.
    A node that is changed after it has been attached to its parent is
    reached through a reference into the tree that holds it. A Python
    exception is a [Raise] result, and the depth of the interpreter's
    call stack is the [fuel] of the recursive routine. *)

From stdpp Require Import base gmap sets list strings pretty.
From Stdlib Require Import Ascii String.

Open Scope string_scope.
Open Scope list_scope.
Open Scope nat_scope.
Set Warnings "-register-all,-clear-no-such-hyp".

(** ** Python values and dictionaries *)

(** The values that end up in attribute dictionaries: [None] or a [str]. *)
Inductive pyval : Type :=
| PyNone
| PyStr (s : string).

(** Truth value of an object: [None] and the empty string are false. *)
Definition truthy (v : pyval) : bool :=
  match v with
  | PyNone => false
  | PyStr EmptyString => false
  | PyStr _ => true
  end.

(** [a or b] *)
Definition py_or (a b : pyval) : pyval := if truthy a then a else b.

(** [getattr(obj, attr, default)], the attribute being [None] when the
    object does not have it. *)
Definition getattr {A} (attr : option A) (default : A) : A :=
  match attr with
  | Some v => v
  | None => default
  end.

(** [d[k] = v] on an insertion-ordered dictionary. *)
Fixpoint dict_set {V} (d : list (string * V)) (k : string) (v : V) : list (string * V) :=
  match d with
  | [] => [(k, v)]
  | (k', v') :: d' =>
      if String.eqb k' k then (k', v) :: d' else (k', v') :: dict_set d' k v
  end.

(** [d.get(k)] *)
Fixpoint dict_lookup {V} (d : list (string * V)) (k : string) : option V :=
  match d with
  | [] => None
  | (k', v) :: d' => if String.eqb k' k then Some v else dict_lookup d' k
  end.

(** [d.get(k, default)] *)
Definition dict_get {V} (d : list (string * V)) (k : string) (default : V) : V :=
  getattr (dict_lookup d k) default.

(** [{**d, **extra}] *)
Definition dict_update {V} (d extra : list (string * V)) : list (string * V) :=
  fold_left (λ acc kv, dict_set acc kv.1 kv.2) extra d.

(** ** Strings *)

Definition is_upper (c : ascii) : bool :=
  let n := nat_of_ascii c in Nat.leb 65 n && Nat.leb n 90.

Definition is_lower (c : ascii) : bool :=
  let n := nat_of_ascii c in Nat.leb 97 n && Nat.leb n 122.

Definition is_digit (c : ascii) : bool :=
  let n := nat_of_ascii c in Nat.leb 48 n && Nat.leb n 57.

Definition is_cased (c : ascii) : bool := is_upper c || is_lower c.

Definition to_upper (c : ascii) : ascii :=
  if is_lower c then ascii_of_nat (nat_of_ascii c - 32) else c.

Definition to_lower (c : ascii) : ascii :=
  if is_upper c then ascii_of_nat (nat_of_ascii c + 32) else c.

(** [str.title()] on ASCII text: a letter that follows a letter is
    lowered, any other letter is raised; bytes outside ASCII are left as
    they are and count as uncased. Python takes the case of a letter
    outside ASCII from the Unicode tables, so the two agree on ASCII
    text only: a property that depends on the letters of a title-cased
    role is stated for roles that satisfy [is_ascii]. *)
Fixpoint title_from (previous_is_cased : bool) (s : string) : string :=
  match s with
  | EmptyString => EmptyString
  | String c s' =>
      String (if previous_is_cased then to_lower c else to_upper c)
             (title_from (is_cased c) s')
  end.

Definition title (s : string) : string := title_from false s.

(** [s.isascii()] *)
Fixpoint is_ascii (s : string) : bool :=
  match s with
  | EmptyString => true
  | String c s' => (N_of_ascii c <? 128)%N && is_ascii s'
  end.

(** [s.rstrip(ch)] for a single character [ch]: every trailing [ch] goes. *)
Fixpoint rstrip (ch : ascii) (s : string) : string :=
  match s with
  | EmptyString => EmptyString
  | String c s' =>
      match rstrip ch s' with
      | EmptyString => if Ascii.eqb c ch then EmptyString else String c EmptyString
      | r => String c r
      end
  end.

(** ** Element trees ([xml.etree.ElementTree.Element]) *)

Inductive Element : Type :=
  mkElement {
    tag : string;
    attrib : list (string * pyval);
    children : list Element;
    text : option string
  }.

(** [Element(tag, attrib, **extra)] *)
Definition new_element (tag : string) (attrib extra : list (string * pyval)) : Element :=
  mkElement tag (dict_update attrib extra) [] None.

(** [element.set(key, value)] *)
Definition set (e : Element) (key : string) (value : pyval) : Element :=
  mkElement (tag e) (dict_set (attrib e) key value) (children e) (text e).

(** [element.append(child)] *)
Definition append (e child : Element) : Element :=
  mkElement (tag e) (attrib e) (children e ++ [child]) (text e).

(** [element.text = s] *)
Definition set_text (e : Element) (s : string) : Element :=
  mkElement (tag e) (attrib e) (children e) (Some s).

(** [element.get(key)] *)
Definition get (e : Element) (key : string) : option pyval :=
  dict_lookup (attrib e) key.

(** [bool(element)]: an element without children is false. *)
Definition element_truthy (e : Element) : bool :=
  match children e with
  | [] => false
  | _ :: _ => true
  end.

(** *** References to nodes of a tree under construction

    The module keeps references to nodes it has already attached to a
    parent and goes on changing them. Nodes are only ever appended, so
    the position of a node below the root of its tree, the list of child
    indices that leads to it, identifies it for good: a reference is
    that position, and changing a node through a reference changes the
    tree that holds it. *)

Definition handle := list nat.

(** The node a reference points to. *)
Fixpoint node_at (h : handle) (root : Element) : option Element :=
  match h with
  | [] => Some root
  | i :: h' =>
      match children root !! i with
      | Some c => node_at h' c
      | None => None
      end
  end.

(** Changing the node a reference points to. *)
Fixpoint update_at (h : handle) (f : Element → Element) (root : Element) : Element :=
  match h with
  | [] => f root
  | i :: h' =>
      mkElement (tag root) (attrib root)
        (alter (update_at h' f) i (children root)) (text root)
  end.

(** [SubElement(parent, tag, **extra)]: the tree with the new node
    appended to [parent], and the reference to the new node. *)
Definition SubElement (root : Element) (parent : handle) (tag : string)
    (extra : list (string * pyval)) : Element * handle :=
  let index :=
    match node_at parent root with
    | Some p => List.length (children p)
    | None => O
    end in
  (update_at parent (λ p, append p (new_element tag [] extra)) root,
   parent ++ [index]).

(** [node.append(child)] through a reference *)
Definition append_at (root : Element) (h : handle) (child : Element) : Element :=
  update_at h (λ p, append p child) root.

(** [node.text = s] through a reference *)
Definition set_text_at (root : Element) (h : handle) (s : string) : Element :=
  update_at h (λ p, set_text p s) root.

(** ** Results of a call: a value, an exception, or the stack exhausted *)

Inductive exn : Type :=
| AttributeError (attr : string).

Inductive result (A : Type) : Type :=
| Ok (a : A)
| Raise (e : exn)
| OutOfFuel.

Arguments Ok {A} a.
Arguments Raise {A} e.
Arguments OutOfFuel {A}.

#[global] Instance result_ret : MRet result := λ A a, Ok a.

#[global] Instance result_bind : MBind result := λ A B f m,
  match m with
  | Ok a => f a
  | Raise e => Raise e
  | OutOfFuel => OutOfFuel
  end.

(** [for x in l: s = body(s, x)], leaving at the first exception. *)
Fixpoint for_each {A S} (body : S → A → result S) (l : list A) (s : S) : result S :=
  match l with
  | [] => Ok s
  | x :: l' => s' ← body s x; for_each body l' s'
  end.

(** ** Classes, annotations and field descriptors *)

(** Identity of a class object. *)
Definition class_id := positive.

(** The objects found in [FieldInfo.annotation]. *)
Inductive py_annotation : Type :=
| AnnNone
    (* None *)
| AnnClass (name : string)
    (* an ordinary class: int, str, datetime, AnyUrl, ...; [__name__] is [name] *)
| AnnModel (cls : class_id)
    (* a class made by XmlModelMeta *)
| AnnAlias (origin : string) (args : list py_annotation) (name : option string)
    (* a parameterised form, list[T], List[T], Optional[T], T | None, ...:
       neither a class made by XmlModelMeta nor an instance of list;
       [name] is its [__name__] when the object answers that attribute *)
| AnnListObj (items : list py_annotation).
    (* an instance of list, [T] *)

(** [FieldInfo.default]: the [PydanticUndefined] sentinel or a value. *)
Inductive default_value : Type :=
| PydanticUndefined
| Default (v : pyval).

Module FieldInfo.
Record t : Type := mk {
  is_xml_entity : bool;      (* isinstance(field_info, XmlEntityInfo) *)
  path : pyval;              (* XmlEntityInfo.path *)
  alias : pyval;             (* alias, None when not given *)
  name : option pyval;       (* attribute [name], when the object has one *)
  annotation : py_annotation;
  default : default_value
}.
End FieldInfo.

Record Model : Type := {
  __name__ : string;
  __xml_tag__ : option pyval;        (* attribute [__xml_tag__], when the class has one *)
  model_config_tag : option pyval;   (* entry "tag" of [model_config], when present *)
  model_fields : list (string * FieldInfo.t)
}.

(** [bool(annotation)] *)
Definition ann_truthy (a : py_annotation) : bool :=
  match a with
  | AnnNone => false
  | AnnListObj [] => false
  | _ => true
  end.

(** [isinstance(annotation, list)] *)
Definition isinstance_list (a : py_annotation) : bool :=
  match a with
  | AnnListObj _ => true
  | _ => false
  end.

Definition PYTHON_XSD_TYPE_MAP : list (string * string) :=
  [ ("str", "string");
    ("int", "integer");
    ("float", "double");
    ("bool", "boolean");
    ("date", "date");
    ("time", "time");
    ("datetime", "dateTime");
    ("AnyUrl", "anyURI");
    ("PositiveInt", "positiveInteger") ].

(** The module binds [nsmap] twice; the second binding is the one in
    force when the functions run. *)
Definition nsmap : list (string * pyval) :=
  [ ("xmlns:soap", PyStr "http://schemas.xmlsoap.org/wsdl/soap/");
    ("xmlns:wsdl", PyStr "http://schemas.xmlsoap.org/wsdl/");
    ("xmlns:xs", PyStr "http://www.w3.org/2001/XMLSchema");
    ("xmlns:wsdlsoap", PyStr "http://schemas.xmlsoap.org/wsdl/soap/") ].

Section Generator.

(** The class table: the model class behind each identity. *)
Variable classes : class_id → Model.

(** [obj.__name__] *)
Definition dunder_name (a : py_annotation) : result string :=
  match a with
  | AnnNone => Raise (AttributeError "__name__")
  | AnnClass n => Ok n
  | AnnModel c => Ok (__name__ (classes c))
  | AnnAlias _ _ (Some n) => Ok n
  | AnnAlias _ _ None => Raise (AttributeError "__name__")
  | AnnListObj _ => Raise (AttributeError "__name__")
  end.

(** [getattr(obj, "__xml_tag__")] on an annotation, [None] when
    [hasattr(obj, "__xml_tag__")] is false. *)
Definition ann_xml_tag (a : py_annotation) : option pyval :=
  match a with
  | AnnModel c => __xml_tag__ (classes c)
  | _ => None
  end.

(** Line 36: [model or (field_info.annotation if field_info else None)];
    a class and a field descriptor are always true. *)
Definition underlying_type (model : option class_id)
    (field_info : option FieldInfo.t) : py_annotation :=
  match model with
  | Some m => AnnModel m
  | None =>
      match field_info with
      | Some field_info => FieldInfo.annotation field_info
      | None => AnnNone
      end
  end.

(** Lines 38-51: the [name] attribute. *)
Definition resolve_name (xsd_element : Element) (model : option class_id)
    (field_info : option FieldInfo.t) (model_ : py_annotation) : Element :=
  match model with
  | Some m =>
      set xsd_element "name"
        (getattr (__xml_tag__ (classes m)) (PyStr (__name__ (classes m))))
  | None =>
      match field_info with
      | Some field_info =>
          let tag_name :=
            if FieldInfo.is_xml_entity field_info
            then py_or (FieldInfo.path field_info) (FieldInfo.alias field_info)
            else py_or (FieldInfo.alias field_info)
                       (getattr (FieldInfo.name field_info) (PyStr "Unknown")) in
          set xsd_element "name" tag_name
      | None =>
          match ann_xml_tag model_ with
          | Some t => set xsd_element "name" t
          | None => set xsd_element "name" (PyStr "Unknown")
          end
      end
  end.

(** Lines 68-73: the occurrence attributes. *)
Definition cardinality (xsd_element : Element) (field_info : option FieldInfo.t) : Element :=
  match field_info with
  | Some field_info =>
      if isinstance_list (FieldInfo.annotation field_info)
      then set (set xsd_element "minOccurs" (PyStr "0")) "maxOccurs" (PyStr "unbounded")
      else
        match FieldInfo.default field_info with
        | Default _ => set xsd_element "minOccurs" (PyStr "0")
        | PydanticUndefined => xsd_element
        end
  | None => xsd_element
  end.

(** [generate_xsd_element(model, field_info)], with [fuel] frames of
    stack left. *)
Fixpoint generate_xsd_element (fuel : nat) (model : option class_id)
    (field_info : option FieldInfo.t) : result Element :=
  match fuel with
  | O => OutOfFuel
  | S fuel' =>
      let xsd_element := new_element "xs:element" [] [] in
      let model_ := underlying_type model field_info in
      let xsd_element := resolve_name xsd_element model field_info model_ in
      xsd_element ←
        match model_ with
        | AnnModel cls =>
            let complex_type := new_element "xs:complexType" [] [] in
            let '(complex_type, sequence) :=
              SubElement complex_type [] "xs:sequence" [] in
            complex_type ←
              for_each
                (λ complex_type item,
                   tag ← generate_xsd_element fuel' None (Some item.2);
                   mret (append_at complex_type sequence tag))
                (model_fields (classes cls)) complex_type;
            mret (append xsd_element complex_type)
        | _ =>
            type_name ← (if ann_truthy model_ then dunder_name model_ else mret "str");
            let element_type := dict_get PYTHON_XSD_TYPE_MAP type_name "string" in
            mret (set xsd_element "type" (PyStr ("xs:" +:+ element_type)))
        end;
      mret (cardinality xsd_element field_info)
  end.

(** [generate_xsd_schema_etree(models)] *)
Definition generate_xsd_schema_etree (fuel : nat) (models : list class_id) : result Element :=
  for_each
    (λ schema model,
       tag ← generate_xsd_element fuel (Some model) None;
       mret (if element_truthy tag then append schema tag else schema))
    models (new_element "xs:schema" nsmap []).

End Generator.

(** ** The URL of the request

    Modelled from the spec: the URL object of the incoming request, which
    belongs to the web framework and not to this module, "a base URL
    object supporting query/fragment stripping and string rendering".
    It keeps the URL as text, splits the text into scheme, authority,
    path, query and fragment on demand, and [replace] puts the text
    together again from the changed components. *)

Record SplitResult : Type := {
  scheme : string;
  netloc : string;
  url_path : string;
  query : string;
  fragment : string
}.

(** [s.split(ch, 1)] when [ch] occurs in [s] *)
Fixpoint split_once (ch : ascii) (s : string) : option (string * string) :=
  match s with
  | EmptyString => None
  | String c s' =>
      if Ascii.eqb c ch then Some (EmptyString, s')
      else
        match split_once ch s' with
        | Some (a, b) => Some (String c a, b)
        | None => None
        end
  end.

Definition is_scheme_char (c : ascii) : bool :=
  is_cased c || is_digit c || Ascii.eqb c "+" || Ascii.eqb c "-" || Ascii.eqb c ".".

Fixpoint string_forallb (p : ascii → bool) (s : string) : bool :=
  match s with
  | EmptyString => true
  | String c s' => p c && string_forallb p s'
  end.

Fixpoint string_map (f : ascii → ascii) (s : string) : string :=
  match s with
  | EmptyString => EmptyString
  | String c s' => String (f c) (string_map f s')
  end.

(** The authority ends at the first of [/], [?] and [#]. *)
Fixpoint splitnetloc (s : string) : string * string :=
  match s with
  | EmptyString => (EmptyString, EmptyString)
  | String c s' =>
      if Ascii.eqb c "/" || Ascii.eqb c "?" || Ascii.eqb c "#" then (EmptyString, s)
      else let '(a, b) := splitnetloc s' in (String c a, b)
  end.

(** Modelled from the spec: the five components of a URL given as text. *)
Definition urlsplit (url : string) : SplitResult :=
  let '(scheme, url) :=
    match split_once ":" url with
    | Some (String c pre, post) =>
        if is_cased c && string_forallb is_scheme_char pre
        then (string_map to_lower (String c pre), post)
        else (EmptyString, url)
    | _ => (EmptyString, url)
    end in
  let '(netloc, url) :=
    match url with
    | String "/" (String "/" rest) => splitnetloc rest
    | _ => (EmptyString, url)
    end in
  let '(url, fragment) :=
    match split_once "#" url with
    | Some (a, b) => (a, b)
    | None => (url, EmptyString)
    end in
  let '(url, query) :=
    match split_once "?" url with
    | Some (a, b) => (a, b)
    | None => (url, EmptyString)
    end in
  {| scheme := scheme; netloc := netloc; url_path := url;
     query := query; fragment := fragment |}.

Definition nonempty (s : string) : bool :=
  match s with
  | EmptyString => false
  | String _ _ => true
  end.

Definition starts_with_slash (s : string) : bool :=
  match s with
  | String "/" _ => true
  | _ => false
  end.

Definition starts_with_two_slashes (s : string) : bool :=
  match s with
  | String "/" (String "/" _) => true
  | _ => false
  end.

(** The schemes that take an authority. *)
Definition uses_netloc : list string :=
  ["ftp"; "http"; "gopher"; "nntp"; "telnet"; "imap"; "wais"; "file"; "mms";
   "https"; "shttp"; "snews"; "prospero"; "rtsp"; "rtspu"; "rsync"; "svn";
   "svn+ssh"; "sftp"; "nfs"; "git"; "git+ssh"; "ws"; "wss"].

(** Modelled from the spec: the text of a URL given by its components;
    an empty query or fragment leaves no [?] or [#] behind. *)
Definition urlunsplit (c : SplitResult) : string :=
  let url := url_path c in
  let url :=
    if nonempty (netloc c)
       || (nonempty (scheme c) && bool_decide (scheme c ∈ uses_netloc)
           && negb (starts_with_two_slashes url))
    then "//" +:+ netloc c +:+ (if nonempty url && negb (starts_with_slash url) then "/" +:+ url else url)
    else url in
  let url := if nonempty (scheme c) then scheme c +:+ ":" +:+ url else url in
  let url := if nonempty (query c) then url +:+ "?" +:+ query c else url in
  let url := if nonempty (fragment c) then url +:+ "#" +:+ fragment c else url in
  url.

Record URL : Type := { _url : string }.

(** Modelled from the spec: [url.replace(query=q, fragment=f)], the URL
    with its query and fragment replaced. *)
Definition URL_replace (u : URL) (q f : string) : URL :=
  let c := urlsplit (_url u) in
  {| _url := urlunsplit {| scheme := scheme c; netloc := netloc c;
                           url_path := url_path c; query := q; fragment := f |} |}.

(** Modelled from the spec: [str(url)], the URL as text. *)
Definition URL_str (u : URL) : string := _url u.

Record Request : Type := { url : URL }.

(** ** The WSDL assembler *)

Section Assembler.

Variable classes : class_id → Model.

(** Lines 138-164: one pass of the loop over the roles of an operation.
    The state is the tree under [wsdl] and the set [types]. *)
Definition action_body (method : string) (operation_element binding_operation : handle)
    (st : Element * gset class_id) (item : string * option class_id)
  : Element * gset class_id :=
  let '(wsdl, types) := st in
  let '(action, model) := item in
  match model with
  | None => (wsdl, types)
  | Some model =>
      let types := {[ model ]} ∪ types in
      let message_name := method +:+ title action in
      let '(wsdl, message) :=
        SubElement wsdl [] "wsdl:message" [("name", PyStr message_name)] in
      let element_type :=
        getattr (model_config_tag (classes model)) (PyStr (__name__ (classes model))) in
      let '(wsdl, _) :=
        SubElement wsdl message "wsdl:part"
          [("name", PyStr "parameters"); ("element", element_type)] in
      let wsdl_action := if String.eqb action "request" then "input" else "output" in
      let '(wsdl, _) :=
        SubElement wsdl operation_element ("wsdl:" +:+ wsdl_action)
          [("message", PyStr message_name)] in
      let '(wsdl, binding_operation_action) :=
        SubElement wsdl binding_operation ("wsdl:" +:+ wsdl_action)
          [("message", PyStr message_name)] in
      let '(wsdl, _) :=
        SubElement wsdl binding_operation_action "soap:body" [("use", PyStr "literal")] in
      (wsdl, types)
  end.

(** Lines 109-164: one pass of the loop over the operations. *)
Definition method_body (name : string) (request : Request)
    (port_type_element service_element : handle)
    (st : Element * gset class_id) (item : string * list (string * option class_id))
  : Element * gset class_id :=
  let '(wsdl, types) := st in
  let '(method, models) := item in
  let method_name := name +:+ method in
  let '(wsdl, operation_element) :=
    SubElement wsdl port_type_element "wsdl:operation" [("name", PyStr method_name)] in
  let '(wsdl, binding_element) :=
    SubElement wsdl [] "wsdl:binding" [("name", PyStr method_name); ("type", PyStr name)] in
  let '(wsdl, _) :=
    SubElement wsdl binding_element "soap:binding"
      [("style", PyStr "document");
       ("transport", PyStr "http://schemas.xmlsoap.org/soap/http")] in
  let '(wsdl, binding_operation) :=
    SubElement wsdl binding_element "wsdl:operation" [("name", PyStr method_name)] in
  let '(wsdl, _) :=
    SubElement wsdl binding_operation "soap:operation" [("soapAction", PyStr method)] in
  let '(wsdl, port_element) :=
    SubElement wsdl service_element "wsdl:port"
      [("name", PyStr method_name); ("binding", PyStr method_name)] in
  let location :=
    rstrip "/" (URL_str (URL_replace (url request) EmptyString EmptyString)) +:+ "/" +:+ method in
  let '(wsdl, _) :=
    SubElement wsdl port_element "soap:address" [("location", PyStr location)] in
  fold_left (action_body method operation_element binding_operation) models (wsdl, types).

(** [generate_wsdl(name, methods, url, request, documentation)]; the
    [url] argument is not read. *)
Definition generate_wsdl (fuel : nat) (name : string)
    (methods : list (string * list (string * option class_id)))
    (url : string) (request : Request) (documentation : string) : result Element :=
  let wsdl := new_element "wsdl:definitions" nsmap [("name", PyStr name)] in
  let '(wsdl, documentation_element) := SubElement wsdl [] "wsdl:documentation" [] in
  let wsdl := set_text_at wsdl documentation_element documentation in
  let '(wsdl, types_element) := SubElement wsdl [] "wsdl:types" [] in
  let '(wsdl, port_type_element) :=
    SubElement wsdl [] "wsdl:portType" [("name", PyStr name)] in
  let '(wsdl, service_element) :=
    SubElement wsdl [] "wsdl:service" [("name", PyStr name)] in
  let types : gset class_id := ∅ in
  let '(wsdl, types) :=
    fold_left (method_body name request port_type_element service_element) methods
      (wsdl, types) in
  schema ← generate_xsd_schema_etree classes fuel (elements types);
  mret (append_at wsdl types_element schema).

End Assembler.

(** ** Vocabulary of the properties *)

Section Vocabulary.

Variable classes : class_id → Model.

(** The type structure below an annotation is at most [depth] model
    classes deep, and every object in it that line 64 asks for its
    [__name__] has one. *)
Fixpoint well_formed (depth : nat) (a : py_annotation) {struct depth} : bool :=
  match a with
  | AnnModel cls =>
      match depth with
      | O => false
      | S depth' =>
          forallb (λ item, well_formed depth' (FieldInfo.annotation item.2))
                  (model_fields (classes cls))
      end
  | AnnAlias _ _ None => false
  | AnnListObj (_ :: _) => false
  | _ => true
  end.

(** [nested c c']: a field of the model class [c] is annotated with the
    model class [c']. *)
Definition nested (c c' : class_id) : Prop :=
  ∃ item, item ∈ model_fields (classes c) ∧ FieldInfo.annotation item.2 = AnnModel c'.

(** The model classes reachable from [m] can be ranked so that a nested
    class always has a smaller rank than the class that holds it: the
    type graph below [m] has no cycle. *)
Definition acyclic_from (m : class_id) : Prop :=
  ∃ rank : class_id → nat,
    ∀ c c', rtc nested m c → nested c c' → rank c' < rank c.

(** A model class is the request or the response of some operation. *)
Definition referenced (methods : list (string * list (string * option class_id)))
    (m : class_id) : Prop :=
  ∃ method models action,
    (method, models) ∈ methods ∧ (action, Some m) ∈ models.

End Vocabulary.

(** [element.extend(tags)] *)
Definition extend (e : Element) (tags : list Element) : Element :=
  mkElement (tag e) (attrib e) (children e ++ tags) (text e).

(** The body of a loop that generates one node per item and appends
    it to the node the loop fills. *)
Definition append_body {A} (g : A → result Element) (sequence : Element) (item : A)
  : result Element :=
  tag ← g item; mret (append sequence tag).

(** The primitive table as the specification words it: the XSD name
    [xsd] that belongs to the Python type name [n]. *)
Definition primitive_table (n xsd : string) : Prop :=
  (n = "str" → xsd = "string") ∧
  (n = "int" → xsd = "integer") ∧
  (n = "float" → xsd = "double") ∧
  (n = "bool" → xsd = "boolean") ∧
  (n = "date" → xsd = "date") ∧
  (n = "time" → xsd = "time") ∧
  (n = "datetime" → xsd = "dateTime") ∧
  (n = "AnyUrl" → xsd = "anyURI") ∧
  (n = "PositiveInt" → xsd = "positiveInteger") ∧
  (n ∉ ["str"; "int"; "float"; "bool"; "date"; "time"; "datetime"; "AnyUrl"; "PositiveInt"] →
   xsd = "string").

(** A scalar element: no children, and a [type] attribute that is the
    XSD-qualified entry of the primitive table for the type name [n]. *)
Definition scalar_element (e : Element) (n : string) : Prop :=
  children e = [] ∧
  ∃ xsd, get e "type" = Some (PyStr ("xs:" +:+ xsd)) ∧ primitive_table n xsd.

(** The claim that the generator returns an element on every input. *)
Definition always_returns : Prop :=
  ∀ (classes : class_id → Model) model field_info,
    ∃ fuel e, generate_xsd_element classes fuel model field_info = Ok e.

(** *** The nodes of a finished WSDL tree *)

(** The roles of an operation that have a model, in the order of the
    mapping. *)
Definition present_roles (models : list (string * option class_id))
  : list (string * class_id) :=
  omap (λ item : string * option class_id, pair item.1 <$> item.2) models.

(** The wsdl:message of a role: one wsdl:part that names the model. *)
Definition message_node (classes : class_id → Model) (method : string)
    (role : string * class_id) : Element :=
  mkElement "wsdl:message" [("name", PyStr (method +:+ title role.1))]
    [mkElement "wsdl:part"
       [("name", PyStr "parameters");
        ("element",
         match model_config_tag (classes role.2) with
         | Some t => t
         | None => PyStr (__name__ (classes role.2))
         end)]
       [] None]
    None.

(** The wsdl:input or wsdl:output of a role under a portType operation. *)
Definition io_node (method : string) (role : string * class_id) : Element :=
  mkElement ("wsdl:" +:+ (if String.eqb role.1 "request" then "input" else "output"))
    [("message", PyStr (method +:+ title role.1))] [] None.

(** The same under a binding operation, with its soap:body. *)
Definition binding_io_node (method : string) (role : string * class_id) : Element :=
  mkElement ("wsdl:" +:+ (if String.eqb role.1 "request" then "input" else "output"))
    [("message", PyStr (method +:+ title role.1))]
    [mkElement "soap:body" [("use", PyStr "literal")] [] None] None.

Definition operation_node (name : string)
    (item : string * list (string * option class_id)) : Element :=
  mkElement "wsdl:operation" [("name", PyStr (name +:+ item.1))]
    (map (io_node item.1) (present_roles item.2)) None.

Definition binding_node (name : string)
    (item : string * list (string * option class_id)) : Element :=
  mkElement "wsdl:binding"
    [("name", PyStr (name +:+ item.1)); ("type", PyStr name)]
    [mkElement "soap:binding"
       [("style", PyStr "document");
        ("transport", PyStr "http://schemas.xmlsoap.org/soap/http")] [] None;
     mkElement "wsdl:operation" [("name", PyStr (name +:+ item.1))]
       (mkElement "soap:operation" [("soapAction", PyStr item.1)] [] None
          :: map (binding_io_node item.1) (present_roles item.2))
       None]
    None.

Definition port_node (name : string) (request : Request)
    (item : string * list (string * option class_id)) : Element :=
  mkElement "wsdl:port"
    [("name", PyStr (name +:+ item.1)); ("binding", PyStr (name +:+ item.1))]
    [mkElement "soap:address"
       [("location",
         PyStr (rstrip "/" (URL_str (URL_replace (url request) EmptyString EmptyString)) +:+ "/" +:+ item.1))]
       [] None]
    None.

(** What one operation adds under wsdl:definitions: its binding, then
    its messages. *)
Definition operation_nodes (classes : class_id → Model) (name : string)
    (item : string * list (string * option class_id)) : list Element :=
  binding_node name item :: map (message_node classes item.1) (present_roles item.2).

(** The root node with its four fixed children and the later ones. *)
Definition definitions (attrs : list (string * pyval)) (d t p s : Element)
    (tail : list Element) : Element :=
  mkElement "wsdl:definitions" attrs (d :: t :: p :: s :: tail) None.

(** The finished tree, given the schema that fills wsdl:types. *)
Definition wsdl_tree (classes : class_id → Model) (name : string)
    (methods : list (string * list (string * option class_id)))
    (request : Request) (documentation : string) (schema : Element) : Element :=
  mkElement "wsdl:definitions" (nsmap ++ [("name", PyStr name)])
    (mkElement "wsdl:documentation" [] [] (Some documentation)
     :: mkElement "wsdl:types" [] [schema] None
     :: mkElement "wsdl:portType" [("name", PyStr name)]
          (map (operation_node name) methods) None
     :: mkElement "wsdl:service" [("name", PyStr name)]
          (map (port_node name request) methods) None
     :: flat_map (operation_nodes classes name) methods)
    None.

(** The model classes an operations mapping mentions. *)
Definition mentioned (methods : list (string * list (string * option class_id)))
  : list class_id :=
  flat_map (λ item, (present_roles item.2).*2) methods.

(** [element.findall(t)]: the children with tag [t]. *)
Definition find_children (t : string) (e : Element) : list Element :=
  filter (λ c, tag c = t) (children e).

(** [findall] along a path of tags, from a list of starting nodes. *)
Fixpoint findall (path : list string) (es : list Element) : list Element :=
  match path with
  | [] => es
  | t :: path' => findall path' (flat_map (find_children t) es)
  end.

(** ** Sample inputs *)

Definition int_field (entity_path : pyval) : FieldInfo.t :=
  FieldInfo.mk true entity_path PyNone None (AnnClass "int") PydanticUndefined.

(** A required field declared [tags: list[str] = element(tag="tags")]. *)
Definition repeated_field : FieldInfo.t :=
  FieldInfo.mk true (PyStr "tags") PyNone None
    (AnnAlias "list" [AnnClass "str"] (Some "list")) PydanticUndefined.

(** A field whose annotation is the list object [[str]]. *)
Definition list_object_field : FieldInfo.t :=
  FieldInfo.mk true (PyStr "tags") PyNone None
    (AnnListObj [AnnClass "str"]) PydanticUndefined.

(** A field whose annotation object has no [__name__], such as a
    forward reference or the union [int | None]. *)
Definition nameless_field : FieldInfo.t :=
  FieldInfo.mk true (PyStr "value") PyNone None
    (AnnAlias "Union" [AnnClass "int"; AnnNone] None) (Default PyNone).

(** Classes 1 and 2 are the models of the Calculator service, class 3
    nests class 1, class 4 has a field annotated with class 4 itself. *)
Definition sample_classes (c : class_id) : Model :=
  match c with
  | 1%positive =>
      {| __name__ := "AddRequest";
         __xml_tag__ := Some (PyStr "AddRequest");
         model_config_tag := Some (PyStr "AddRequest");
         model_fields := [("a", int_field (PyStr "a")); ("b", int_field (PyStr "b"))] |}
  | 2%positive =>
      {| __name__ := "AddResponse";
         __xml_tag__ := Some (PyStr "AddResponse");
         model_config_tag := Some (PyStr "AddResponse");
         model_fields := [("result", int_field (PyStr "result"))] |}
  | 3%positive =>
      {| __name__ := "Batch";
         __xml_tag__ := None;
         model_config_tag := None;
         model_fields :=
           [("first", FieldInfo.mk false PyNone (PyStr "first") None
                        (AnnModel 1%positive) PydanticUndefined);
            ("note", FieldInfo.mk false PyNone PyNone (Some (PyStr "note"))
                        (AnnClass "str") (Default (PyStr EmptyString)))] |}
  | _ =>
      {| __name__ := "Node";
         __xml_tag__ := None;
         model_config_tag := None;
         model_fields :=
           [("next", FieldInfo.mk true (PyStr "next") PyNone None
                        (AnnModel 4%positive) PydanticUndefined)] |}
  end.

Definition calculator_methods : list (string * list (string * option class_id)) :=
  [("Add", [("request", Some 1%positive); ("response", Some 2%positive)])].

Definition calculator_request : Request :=
  {| url := {| _url := "http://host/svc?x=1#frag" |} |}.

(** A service with an operation that answers nothing and two operations
    that share their models. *)
Definition sample_methods : list (string * list (string * option class_id)) :=
  [("Notify", [("request", Some 3%positive); ("response", None)]);
   ("Add", [("request", Some 1%positive); ("response", Some 2%positive)]);
   ("Sub", [("request", Some 1%positive); ("response", Some 2%positive)])].


(** ** Serialization ([dump_etree], lines 88-89)

    [dump_etree] is [tostring(etree).decode()]: the XML serializer of the
    element tree library writes the tree as text, the text is encoded
    in US-ASCII with a numeric character reference for every character
    outside ASCII, and the bytes are read back as text. *)

(** [s.replace(old, new)] for a single character [old] *)
Fixpoint replace (old : ascii) (new : string) (s : string) : string :=
  match s with
  | EmptyString => EmptyString
  | String c s' =>
      if Ascii.eqb c old then new +:+ replace old new s'
      else String c (replace old new s')
  end.

(** [_escape_cdata(text)]: the three replacements, in the order of the
    library. *)
Definition _escape_cdata (text : string) : string :=
  let text := replace "&" "&amp;" text in
  let text := replace "<" "&lt;" text in
  let text := replace ">" "&gt;" text in
  text.

(** [_escape_attrib(text)]: the seven replacements, in the order of the
    library; a value that is not text cannot be serialized. *)
Definition _escape_attrib (value : pyval) : option string :=
  match value with
  | PyNone => None
  | PyStr text =>
      let text := replace "&" "&amp;" text in
      let text := replace "<" "&lt;" text in
      let text := replace ">" "&gt;" text in
      let text := replace "034" "&quot;" text in
      let text := replace "013" "&#13;" text in
      let text := replace "010" "&#10;" text in
      let text := replace "009" "&#09;" text in
      Some text
  end.

(** The attributes of a start tag, each as [ key="value"]. *)
Fixpoint serialize_items (items : list (string * pyval)) : option string :=
  match items with
  | [] => Some EmptyString
  | (k, v) :: items' =>
      v ← _escape_attrib v;
      rest ← serialize_items items';
      Some (" " +:+ k +:+ "=" +:+ String "034" v +:+ String "034" rest)
  end.

(** The children of a node, one after the other. *)
Fixpoint serialize_each {A} (serialize : A → option string) (l : list A)
  : option string :=
  match l with
  | [] => Some EmptyString
  | e :: l' =>
      s ← serialize e;
      rest ← serialize_each serialize l';
      Some (s +:+ rest)
  end.

(** [if text:] *)
Definition text_truthy (text : option string) : bool :=
  match text with
  | Some (String _ _) => true
  | _ => false
  end.

(** [_serialize_xml(write, elem, ...)] on a node with plain names: the
    text written, or nothing when a value cannot be serialized. A node
    without text and children is written in the short form. *)
Fixpoint _serialize_xml (elem : Element) : option string :=
  match elem with
  | mkElement tag attrib kids text =>
      items ← serialize_items attrib;
      if text_truthy text || negb (bool_decide (kids = []))
      then
        body ← serialize_each _serialize_xml kids;
        Some ("<" +:+ tag +:+ items +:+ ">"
              +:+ _escape_cdata (default EmptyString text)
              +:+ body +:+ "</" +:+ tag +:+ ">")
      else Some ("<" +:+ tag +:+ items +:+ " />")
  end.

(** A continuation byte of UTF-8. *)
Definition is_continuation (b : ascii) : bool :=
  (128 <=? N_of_ascii b)%N && (N_of_ascii b <? 192)%N.

(** The six payload bits of a continuation byte. *)
Definition payload (b : ascii) : N := (N_of_ascii b - 128)%N.

(** [&#N;] *)
Definition charref (code_point : N) : string :=
  "&#" +:+ pretty code_point +:+ ";".

(** [text.encode("us-ascii", "xmlcharrefreplace").decode()] on text held
    as UTF-8: an ASCII character stays, any other character becomes the
    reference to its code point. A byte that starts no character of
    UTF-8, which the encoding of a text never has, is left alone. *)
Fixpoint xmlcharrefreplace (s : string) : string :=
  match s with
  | EmptyString => EmptyString
  | String b0 s0 =>
      let n0 := N_of_ascii b0 in
      let other := String b0 (xmlcharrefreplace s0) in
      if (n0 <? 128)%N then other
      else
        match s0 with
        | String b1 s1 =>
            if (192 <=? n0)%N && (n0 <? 224)%N && is_continuation b1
            then charref ((n0 - 192) * 64 + payload b1) +:+ xmlcharrefreplace s1
            else
              match s1 with
              | String b2 s2 =>
                  if (224 <=? n0)%N && (n0 <? 240)%N
                     && is_continuation b1 && is_continuation b2
                  then charref (((n0 - 224) * 64 + payload b1) * 64 + payload b2)
                       +:+ xmlcharrefreplace s2
                  else
                    match s2 with
                    | String b3 s3 =>
                        if (240 <=? n0)%N && (n0 <? 248)%N && is_continuation b1
                           && is_continuation b2 && is_continuation b3
                        then charref ((((n0 - 240) * 64 + payload b1) * 64
                                       + payload b2) * 64 + payload b3)
                             +:+ xmlcharrefreplace s3
                        else other
                    | EmptyString => other
                    end
              | EmptyString => other
              end
        | EmptyString => other
        end
  end.

(** A name in Clark notation, [{uri}local]. *)
Definition is_clark (name : string) : bool :=
  match name with
  | String "{" _ => true
  | _ => false
  end.

(** Some tag or attribute name of the tree is in Clark notation. *)
Fixpoint has_clark_name (e : Element) : bool :=
  match e with
  | mkElement tag attrib kids _ =>
      is_clark tag || existsb (λ kv, is_clark kv.1) attrib || existsb has_clark_name kids
  end.

(** The outcomes of [dump_etree]. The serializer gives a name in Clark
    notation a namespace prefix of its own making; this module builds no
    such name, and a tree that has one is left out of the model. *)
Inductive dumped : Type :=
| Text (s : string)
| TypeError
    (* "cannot serialize None (type NoneType)" *)
| ClarkNotation.

(** [dump_etree(etree)] *)
Definition dump_etree (etree : Element) : dumped :=
  if has_clark_name etree then ClarkNotation
  else
    match _serialize_xml etree with
    | Some text => Text (xmlcharrefreplace text)
    | None => TypeError
    end.

(** Every attribute value of the tree is text. *)
Fixpoint all_values_text (e : Element) : bool :=
  match e with
  | mkElement _ attrib kids _ =>
      forallb (λ kv, match kv.2 with PyStr _ => true | PyNone => false end) attrib
      && forallb all_values_text kids
  end.

(** ** Vocabulary of the further properties *)

(** The occurrence attributes that lines 68-73 can add. *)
Definition occurrence_attributes : list (list (string * pyval)) :=
  [ [];
    [("minOccurs", PyStr "0")];
    [("minOccurs", PyStr "0"); ("maxOccurs", PyStr "unbounded")] ].

(** The XSD type names of the primitive table and of its default. *)
Definition xsd_type_names : list string :=
  ["string"; "integer"; "double"; "boolean"; "date"; "time"; "dateTime";
   "anyURI"; "positiveInteger"].

(** The form of an xs:element: a name, then either a type and no
    child, or one xs:complexType holding one xs:sequence of elements of
    the same form, then the occurrence attributes. *)
Fixpoint xsd_shaped (e : Element) : Prop :=
  match e with
  | mkElement tag attrib kids text =>
      tag = "xs:element" ∧ text = None ∧
      ∃ name occurs,
        occurs ∈ occurrence_attributes ∧
        match kids with
        | [] =>
            ∃ x, x ∈ xsd_type_names ∧
                 attrib = ("name", name) :: ("type", PyStr ("xs:" +:+ x)) :: occurs
        | [mkElement ct_tag ct_attrib [mkElement seq_tag seq_attrib fields seq_text] ct_text] =>
            attrib = ("name", name) :: occurs ∧
            ct_tag = "xs:complexType" ∧ ct_attrib = [] ∧ ct_text = None ∧
            seq_tag = "xs:sequence" ∧ seq_attrib = [] ∧ seq_text = None ∧
            (fix all (l : list Element) : Prop :=
               match l with
               | [] => True
               | f :: l' => xsd_shaped f ∧ all l'
               end) fields
        | _ => False
        end
  end.

(** A field whose annotation is the empty list object. *)
Definition empty_list_field : FieldInfo.t :=
  FieldInfo.mk false PyNone (PyStr "tags") None (AnnListObj []) PydanticUndefined.

(** Class 1 has a good field followed by one whose annotation has no
    [__name__]; class 2 is tagged through [__xml_tag__] only, class 3
    through [model_config] only. *)
Definition faulty_classes (c : class_id) : Model :=
  match c with
  | 1%positive =>
      {| __name__ := "Mixed";
         __xml_tag__ := Some (PyStr "Mixed");
         model_config_tag := None;
         model_fields := [("a", int_field (PyStr "a")); ("value", nameless_field)] |}
  | 2%positive =>
      {| __name__ := "Order";
         __xml_tag__ := Some (PyStr "order");
         model_config_tag := None;
         model_fields := [("id", int_field (PyStr "id"))] |}
  | _ =>
      {| __name__ := "Receipt";
         __xml_tag__ := None;
         model_config_tag := Some (PyStr "receipt");
         model_fields := [("id", int_field PyNone)] |}
  end.

(** A model class declared without a tag, [class Ping(BaseXmlModel)]:
    the class has the attribute [__xml_tag__], and it holds None. *)
Definition untagged_classes (c : class_id) : Model :=
  {| __name__ := "Ping";
     __xml_tag__ := Some PyNone;
     model_config_tag := None;
     model_fields := [("text", FieldInfo.mk true (PyStr "text") PyNone None
                                 (AnnClass "str") PydanticUndefined)] |}.

(** The nodes of a tree: the root and everything below it. *)
Fixpoint nodes (e : Element) : list Element :=
  match e with
  | mkElement _ _ kids _ => e :: flat_map nodes kids
  end.

(** * Properties *)

(** ** Loops and results *)

Lemma bind_Ok {A B} (m : result A) (f : A → result B) (b : B) :
  m ≫= f = Ok b ↔ ∃ a, m = Ok a ∧ f a = Ok b.
Proof.
  destruct m as [a| |]; cbn; split.
  - eauto.
  - intros (a' & [= <-] & H). exact H.
  - discriminate.
  - intros (? & [=] & _).
  - discriminate.
  - intros (? & [=] & _).
Qed.

Lemma bind_not_OutOfFuel {A B} (m : result A) (f : A → result B) :
  m ≠ OutOfFuel → (∀ a, m = Ok a → f a ≠ OutOfFuel) → m ≫= f ≠ OutOfFuel.
Proof.
  destruct m as [a| |]; cbn; intros Hm Hf; [by apply Hf | discriminate | done].
Qed.

Lemma extend_nil e : extend e [] = e.
Proof. destruct e. unfold extend. cbn. by rewrite app_nil_r. Qed.

Lemma extend_append e t tags : extend (append e t) tags = extend e (t :: tags).
Proof. unfold extend, append. cbn. by rewrite <- app_assoc. Qed.

Section Loops.

Context {A : Type}.


Lemma for_each_append_Ok (g : A → result Element) l tags :
  Forall2 (λ x t, g x = Ok t) l tags →
  ∀ seq, for_each (append_body g) l seq = Ok (extend seq tags).
Proof.
  induction 1 as [|x t l tags Hx _ IH]; intros seq; cbn.
  - by rewrite extend_nil.
  - replace (append_body g seq x) with (Ok (append seq t))
      by (unfold append_body; by rewrite Hx).
    cbn. rewrite IH. by rewrite extend_append.
Qed.

Lemma for_each_append_inv (g : A → result Element) l :
  ∀ seq seq', for_each (append_body g) l seq = Ok seq' →
  ∃ tags, Forall2 (λ x t, g x = Ok t) l tags ∧ seq' = extend seq tags.
Proof.
  induction l as [|x l IH]; intros seq seq'; cbn.
  - intros [= <-]. exists []. split; [constructor | by rewrite extend_nil].
  - intros H. apply bind_Ok in H as (s1 & H1 & H2).
    unfold append_body in H1. apply bind_Ok in H1 as (t & Ht & [= <-]).
    destruct (IH _ _ H2) as (tags & Htags & ->).
    exists (t :: tags). split; [by constructor | by rewrite extend_append].
Qed.

Lemma for_each_append_total (g : A → result Element) l :
  (∀ x, x ∈ l → ∃ t, g x = Ok t) →
  ∃ tags, Forall2 (λ x t, g x = Ok t) l tags.
Proof.
  induction l as [|x l IH]; intros H.
  - exists []. constructor.
  - destruct (H x) as [t Ht]; [left |].
    destruct IH as [tags Htags]; [intros y Hy; apply H; by right |].
    exists (t :: tags). by constructor.
Qed.

Lemma for_each_not_OutOfFuel {S} (body : S → A → result S) l :
  (∀ x s, x ∈ l → body s x ≠ OutOfFuel) →
  ∀ s, for_each body l s ≠ OutOfFuel.
Proof.
  induction l as [|x l IH]; intros H s; cbn; [discriminate |].
  apply bind_not_OutOfFuel.
  - apply H. left.
  - intros s' _. apply IH. intros y s'' Hy. apply H. by right.
Qed.

Lemma for_each_append_not_Ok (g : A → result Element) l x :
  x ∈ l → (∀ t, g x ≠ Ok t) →
  ∀ seq seq', for_each (append_body g) l seq ≠ Ok seq'.
Proof.
  intros Hx Hg seq seq' H.
  apply for_each_append_inv in H as (tags & Htags & _).
  apply list_elem_of_lookup in Hx as [i Hi].
  destruct (Forall2_lookup_l _ _ _ _ _ Htags Hi) as (t & _ & Ht).
  by apply (Hg t).
Qed.

(** Lines 55-59: the sequence is attached to the complex type before
    it is filled, and filled through its reference. *)
Lemma for_each_sequence (g : A → result Element) l :
  ∀ a seq,
    for_each
      (λ complex_type item, tag ← g item; mret (append_at complex_type [0] tag))
      l (mkElement "xs:complexType" a [seq] None) =
    for_each (append_body g) l seq
    ≫= λ seq', mret (mkElement "xs:complexType" a [seq'] None).
Proof.
  induction l as [|x l IH]; intros a seq; cbn [for_each]; [reflexivity |].
  change (append_body g seq x) with (g x ≫= λ tag, mret (append seq tag)).
  destruct (g x) as [t| |]; [| reflexivity | reflexivity].
  apply IH.
Qed.

End Loops.

(** ** The schema element generator *)

Section GeneratorFacts.

Variable classes : class_id → Model.

Lemma bind_mret_bind {A B C} (m : result A) (f : A → B) (k : B → result C) :
  (m ≫= λ a, mret (f a)) ≫= k = m ≫= λ a, k (f a).
Proof. by destruct m. Qed.

(** The call on a model class, or on a field annotated with one. *)
Lemma generate_model fuel model field_info cls :
  underlying_type model field_info = AnnModel cls →
  generate_xsd_element classes (S fuel) model field_info =
  for_each
    (append_body (λ item, generate_xsd_element classes fuel None (Some item.2)))
    (model_fields (classes cls)) (new_element "xs:sequence" [] [])
  ≫= λ sequence,
      mret (cardinality
              (append
                 (resolve_name classes (new_element "xs:element" [] []) model field_info
                    (AnnModel cls))
                 (append (new_element "xs:complexType" [] []) sequence))
              field_info).
Proof.
  intros H.
  transitivity
    ((for_each
        (λ complex_type item,
           tag ← generate_xsd_element classes fuel None (Some item.2);
           mret (append_at complex_type [0] tag))
        (model_fields (classes cls))
        (mkElement "xs:complexType" [] [new_element "xs:sequence" [] []] None)
      ≫= λ complex_type,
          mret (append
                  (resolve_name classes (new_element "xs:element" [] []) model field_info
                     (AnnModel cls))
                  complex_type))
     ≫= λ xsd_element, mret (cardinality xsd_element field_info)).
  { cbn [generate_xsd_element]. rewrite H. reflexivity. }
  rewrite (for_each_sequence
             (λ item, generate_xsd_element classes fuel None (Some item.2))).
  rewrite !bind_mret_bind. reflexivity.
Qed.

(** The call on anything else. *)
Lemma generate_scalar fuel model field_info :
  (∀ cls, underlying_type model field_info ≠ AnnModel cls) →
  generate_xsd_element classes (S fuel) model field_info =
  (if ann_truthy (underlying_type model field_info)
   then dunder_name classes (underlying_type model field_info)
   else mret "str")
  ≫= λ type_name,
      mret (cardinality
              (set
                 (resolve_name classes (new_element "xs:element" [] []) model field_info
                    (underlying_type model field_info))
                 "type"
                 (PyStr ("xs:" +:+ dict_get PYTHON_XSD_TYPE_MAP type_name "string")))
              field_info).
Proof.
  intros H. cbn [generate_xsd_element].
  destruct (underlying_type model field_info) as [| | cls | |] eqn:E;
    try (rewrite bind_mret_bind; reflexivity).
  by destruct (H cls).
Qed.

Lemma generate_model_Ok fuel model field_info cls tags :
  underlying_type model field_info = AnnModel cls →
  Forall2 (λ item t, generate_xsd_element classes fuel None (Some item.2) = Ok t)
          (model_fields (classes cls)) tags →
  generate_xsd_element classes (S fuel) model field_info =
  Ok (cardinality
        (append
           (resolve_name classes (new_element "xs:element" [] []) model field_info
              (AnnModel cls))
           (mkElement "xs:complexType" [] [mkElement "xs:sequence" [] tags None] None))
        field_info).
Proof.
  intros H Htags. rewrite (generate_model _ _ _ _ H).
  rewrite (for_each_append_Ok _ _ _ Htags). reflexivity.
Qed.

Lemma generate_model_inv fuel model field_info cls e :
  underlying_type model field_info = AnnModel cls →
  generate_xsd_element classes (S fuel) model field_info = Ok e →
  ∃ tags,
    Forall2 (λ item t, generate_xsd_element classes fuel None (Some item.2) = Ok t)
            (model_fields (classes cls)) tags ∧
    e = cardinality
          (append
             (resolve_name classes (new_element "xs:element" [] []) model field_info
                (AnnModel cls))
             (mkElement "xs:complexType" [] [mkElement "xs:sequence" [] tags None] None))
          field_info.
Proof.
  intros H He. rewrite (generate_model _ _ _ _ H) in He.
  apply bind_Ok in He as (sequence & Hseq & [= <-]).
  apply for_each_append_inv in Hseq as (tags & Htags & ->).
  exists tags. split; [exact Htags | reflexivity].
Qed.

(** A result does not change when more stack is available. *)
Lemma generate_more_fuel fuel :
  ∀ model field_info e,
    generate_xsd_element classes fuel model field_info = Ok e →
    generate_xsd_element classes (S fuel) model field_info = Ok e.
Proof.
  induction fuel as [|fuel IH]; intros model field_info e He; [discriminate |].
  destruct (underlying_type model field_info) as [| | cls | |] eqn:E.
  3: {
    destruct (generate_model_inv _ _ _ _ _ E He) as (tags & Htags & ->).
    apply generate_model_Ok; [exact E |].
    eapply Forall2_impl; [exact Htags |]. intros item t Ht. by apply IH.
  }
  all: rewrite generate_scalar in He by (intros cls; rewrite E; discriminate).
  all: rewrite generate_scalar by (intros cls; rewrite E; discriminate).
  all: exact He.
Qed.

Lemma generate_fuel_le (fuel fuel' : nat) model field_info e :
  fuel ≤ fuel' →
  generate_xsd_element classes fuel model field_info = Ok e →
  generate_xsd_element classes fuel' model field_info = Ok e.
Proof.
  induction 1 as [|fuel' _ IH]; intros He; [exact He |].
  apply generate_more_fuel, IH, He.
Qed.

(** On a well-formed type structure the call returns. *)
Lemma generate_total (fuel : nat) :
  ∀ (depth : nat) model field_info,
    well_formed classes depth (underlying_type model field_info) = true →
    depth < fuel →
    ∃ e, generate_xsd_element classes fuel model field_info = Ok e.
Proof.
  induction fuel as [|fuel IH]; intros depth model field_info Hwf Hlt; [lia |].
  destruct (underlying_type model field_info) as [| n | cls | o args [n|] | [|i items]] eqn:E.
  3: {
    destruct depth as [|depth]; [discriminate Hwf |].
    cbn in Hwf. rewrite forallb_forall in Hwf.
    destruct (for_each_append_total
                (λ item, generate_xsd_element classes fuel None (Some item.2))
                (model_fields (classes cls))) as [tags Htags].
    { intros item Hitem. apply (IH depth); [| lia].
      cbn. apply Hwf. by apply list_elem_of_In. }
    eexists. apply generate_model_Ok; [exact E | exact Htags].
  }
  all: try (destruct depth; discriminate Hwf).
  all: rewrite generate_scalar by (intros cls; rewrite E; discriminate).
  all: rewrite E; cbn; eauto.
Qed.

(** On an acyclic type graph the call does not exhaust the stack. *)
Lemma generate_terminates (m : class_id) (rank : class_id → nat) :
  (∀ c c', rtc (nested classes) m c → nested classes c c' → rank c' < rank c) →
  ∀ fuel model field_info,
    match underlying_type model field_info with
    | AnnModel c => rtc (nested classes) m c ∧ rank c + 1 < fuel
    | _ => 0 < fuel
    end →
    generate_xsd_element classes fuel model field_info ≠ OutOfFuel.
Proof.
  intros Hrank. induction fuel as [|fuel IH]; intros model field_info H.
  { destruct (underlying_type model field_info); lia. }
  destruct (underlying_type model field_info) as [| n | cls | o args n | items] eqn:E.
  3: {
    destruct H as [Hreach Hfuel].
    rewrite (generate_model _ _ _ _ E).
    apply bind_not_OutOfFuel; [| discriminate].
    apply for_each_not_OutOfFuel. intros item s Hitem.
    unfold append_body. apply bind_not_OutOfFuel; [| discriminate].
    apply IH. cbn.
    destruct (FieldInfo.annotation item.2) as [| | c' | |] eqn:Ea; try lia.
    assert (nested classes cls c') as Hn by (exists item; done).
    split; [by eapply rtc_r | specialize (Hrank _ _ Hreach Hn); lia].
  }
  all: rewrite generate_scalar by (intros cls; rewrite E; discriminate).
  all: rewrite E; apply bind_not_OutOfFuel; [| discriminate].
  all: cbn; try discriminate.
  - by destruct n.
  - by destruct items.
Qed.

(** A model class that nests itself never yields an element. *)
Lemma generate_self_nested (m : class_id) :
  nested classes m m →
  ∀ fuel model field_info,
    underlying_type model field_info = AnnModel m →
    ∀ e, generate_xsd_element classes fuel model field_info ≠ Ok e.
Proof.
  intros (item & Hitem & Hann).
  induction fuel as [|fuel IH]; intros model field_info E e He; [discriminate |].
  rewrite (generate_model _ _ _ _ E) in He.
  apply bind_Ok in He as (sequence & Hseq & _).
  revert Hseq. eapply for_each_append_not_Ok; [exact Hitem |].
  intros t. apply IH. exact Hann.
Qed.

End GeneratorFacts.

(** ** Attributes of a generated element *)

Lemma dict_lookup_set_eq {V} (d : list (string * V)) k v :
  dict_lookup (dict_set d k v) k = Some v.
Proof.
  induction d as [|[k' v'] d IH]; cbn.
  - by rewrite String.eqb_refl.
  - destruct (String.eqb k' k) eqn:E; cbn; rewrite E; [done | exact IH].
Qed.

Lemma dict_lookup_set_ne {V} (d : list (string * V)) k k' v :
  k ≠ k' → dict_lookup (dict_set d k v) k' = dict_lookup d k'.
Proof.
  intros Hne. induction d as [|[k0 v0] d IH]; cbn.
  - destruct (String.eqb_spec k k'); [done | reflexivity].
  - destruct (String.eqb_spec k0 k) as [-> | Hk]; cbn.
    + destruct (String.eqb_spec k k'); [done | reflexivity].
    + destruct (String.eqb k0 k'); [reflexivity | exact IH].
Qed.

Lemma get_set_eq e k v : get (set e k v) k = Some v.
Proof. apply dict_lookup_set_eq. Qed.

Lemma get_set_ne e k k' v : k ≠ k' → get (set e k v) k' = get e k'.
Proof. apply dict_lookup_set_ne. Qed.

Lemma get_append e c k : get (append e c) k = get e k.
Proof. reflexivity. Qed.

Lemma children_set e k v : children (set e k v) = children e.
Proof. reflexivity. Qed.

Lemma get_cardinality e field_info k :
  k ≠ "minOccurs" → k ≠ "maxOccurs" → get (cardinality e field_info) k = get e k.
Proof.
  intros Hmin Hmax. unfold cardinality.
  destruct field_info as [f|]; [| reflexivity].
  destruct (isinstance_list _).
  - rewrite !get_set_ne by done. reflexivity.
  - destruct (FieldInfo.default f); [reflexivity |]. by rewrite get_set_ne.
Qed.

Lemma children_cardinality e field_info :
  children (cardinality e field_info) = children e.
Proof.
  unfold cardinality. destruct field_info as [f|]; [| reflexivity].
  destruct (isinstance_list _); [reflexivity |].
  by destruct (FieldInfo.default f).
Qed.

Section NameFacts.

Variable classes : class_id → Model.

Lemma resolve_name_get model field_info u :
  get (resolve_name classes (new_element "xs:element" [] []) model field_info u) "name" =
  Some match model, field_info with
       | Some m, _ => getattr (__xml_tag__ (classes m)) (PyStr (__name__ (classes m)))
       | None, Some f =>
           if FieldInfo.is_xml_entity f
           then py_or (FieldInfo.path f) (FieldInfo.alias f)
           else py_or (FieldInfo.alias f) (getattr (FieldInfo.name f) (PyStr "Unknown"))
       | None, None => getattr (ann_xml_tag classes u) (PyStr "Unknown")
       end.
Proof.
  unfold resolve_name. destruct model as [m|]; [apply get_set_eq |].
  destruct field_info as [f|]; [apply get_set_eq |].
  destruct (ann_xml_tag classes u); apply get_set_eq.
Qed.

Lemma resolve_name_type model field_info u :
  get (resolve_name classes (new_element "xs:element" [] []) model field_info u) "type" = None
  ∧ children (resolve_name classes (new_element "xs:element" [] []) model field_info u) = [].
Proof.
  unfold resolve_name. destruct model as [m|]; [done |].
  destruct field_info as [f|]; [done |].
  by destruct (ann_xml_tag classes u).
Qed.

(** The [name] attribute of a returned element is the one lines 38-51
    resolve: nothing later touches it. *)
Lemma generate_name fuel model field_info e :
  generate_xsd_element classes fuel model field_info = Ok e →
  get e "name" =
  get (resolve_name classes (new_element "xs:element" [] []) model field_info
         (underlying_type model field_info)) "name".
Proof.
  destruct fuel as [|fuel]; [discriminate |]. intros He.
  destruct (underlying_type model field_info) as [| | cls | |] eqn:E.
  3: {
    destruct (generate_model_inv _ _ _ _ _ _ E He) as (tags & _ & ->).
    rewrite get_cardinality by done. reflexivity.
  }
  all: rewrite generate_scalar in He by (intros cls; rewrite E; discriminate).
  all: apply bind_Ok in He as (n & _ & [= <-]).
  all: rewrite get_cardinality by done.
  all: rewrite get_set_ne by done.
  all: by rewrite E.
Qed.

End NameFacts.

Lemma primitive_table_get n :
  primitive_table n (dict_get PYTHON_XSD_TYPE_MAP n "string").
Proof.
  unfold primitive_table, dict_get, PYTHON_XSD_TYPE_MAP.
  repeat split; try (intros ->; reflexivity).
  intros Hn. cbn [dict_lookup].
  repeat match goal with
         | |- context [String.eqb ?k n] =>
             destruct (String.eqb_spec k n) as [<- | _];
             [exfalso; apply Hn; set_solver |]
         end.
  reflexivity.
Qed.

(** ** The claims on [generate_xsd_element] *)

Section GeneratorClaims.

Variable classes : class_id → Model.

(** The occurrence attributes follow the test of line 69 and the
    default of the field. *)
Lemma generate_occurs fuel model field_info e :
  generate_xsd_element classes fuel model field_info = Ok e →
  (get e "minOccurs", get e "maxOccurs") =
  match field_info with
  | Some f =>
      if isinstance_list (FieldInfo.annotation f)
      then (Some (PyStr "0"), Some (PyStr "unbounded"))
      else
        match FieldInfo.default f with
        | Default _ => (Some (PyStr "0"), None)
        | PydanticUndefined => (None, None)
        end
  | None => (None, None)
  end.
Proof.
  destruct fuel as [|fuel]; [discriminate |]. intros He.
  assert (∃ x, e = cardinality x field_info ∧
               get x "minOccurs" = None ∧ get x "maxOccurs" = None) as (x & -> & Hmin & Hmax).
  { destruct (underlying_type model field_info) as [| | cls | |] eqn:E.
    3: {
      destruct (generate_model_inv _ _ _ _ _ _ E He) as (tags & _ & ->).
      eexists. split; [reflexivity |].
      unfold resolve_name. destruct model; [done |]. destruct field_info; [done |].
      by destruct (ann_xml_tag _ _).
    }
    all: rewrite generate_scalar in He by (intros cls; rewrite E; discriminate).
    all: apply bind_Ok in He as (n & _ & [= <-]).
    all: eexists; (split; [reflexivity |]).
    all: rewrite !get_set_ne by done.
    all: unfold resolve_name; destruct model; [done |]; destruct field_info; [done |].
    all: by destruct (ann_xml_tag _ _). }
  unfold cardinality. destruct field_info as [f|]; [| by rewrite Hmin, Hmax].
  destruct (isinstance_list _).
  - rewrite get_set_ne by done. by rewrite !get_set_eq.
  - destruct (FieldInfo.default f); [by rewrite Hmin, Hmax |].
    rewrite get_set_eq, get_set_ne by done. by rewrite Hmax.
Qed.

(** C1 (defect of the code): a required field declared with the list
    form [list[str]] should come out with minOccurs="0" and
    maxOccurs="unbounded". Line 69 asks whether the annotation is an
    instance of [list]; the annotation [list[str]] is a parameterised
    type, not a list object, so the test is false and the element is
    returned without either attribute. An annotation that is a list
    object, such as [[str]], does not get to line 69: line 64 asks it
    for [__name__] and raises. *)
Theorem repeated_field_has_no_occurrence_bounds (fuel : nat) :
  (∃ e, generate_xsd_element classes (S fuel) None (Some repeated_field) = Ok e ∧
        e = mkElement "xs:element"
              [("name", PyStr "tags"); ("type", PyStr "xs:string")] [] None ∧
        get e "minOccurs" = None ∧
        get e "maxOccurs" = None)
  ∧ generate_xsd_element classes (S fuel) None (Some list_object_field) =
      Raise (AttributeError "__name__").
Proof.
  split; [| reflexivity].
  eexists. split; [reflexivity |]. repeat split.
Qed.

(** C2: called on a field descriptor alone, the element's name is the
    path of an XML entity descriptor, or its alias when the path is
    empty or None; for any other descriptor it is the alias, or, when
    the alias is empty or None, the [name] attribute of the descriptor,
    or "Unknown" when the descriptor has no such attribute. *)
Theorem field_name_precedence (depth fuel : nat) (f : FieldInfo.t) :
  well_formed classes depth (FieldInfo.annotation f) = true →
  depth < fuel →
  ∃ e, generate_xsd_element classes fuel None (Some f) = Ok e ∧
       get e "name" =
       Some (if FieldInfo.is_xml_entity f
             then (if truthy (FieldInfo.path f) then FieldInfo.path f else FieldInfo.alias f)
             else if truthy (FieldInfo.alias f) then FieldInfo.alias f
                  else match FieldInfo.name f with
                       | Some declared => declared
                       | None => PyStr "Unknown"
                       end).
Proof.
  intros Hwf Hlt.
  destruct (generate_total classes fuel depth None (Some f) Hwf Hlt) as [e He].
  exists e. split; [exact He |].
  rewrite (generate_name _ _ _ _ _ He), resolve_name_get. reflexivity.
Qed.

(** C5 (defect of the code): a model class without an explicit tag
    should get its own [__name__] as the element's name. Line 39 reads
    [getattr(model, "__xml_tag__", model.__name__)], and the default of
    [getattr] is used only when the attribute is missing; a model class
    declared without a tag has the attribute, holding None, so the name
    of the element is None, and the element cannot be serialized. A
    tagged class gets its tag (lemmas [generate_name] and
    [resolve_name_get]). *)
Theorem untagged_model_gets_no_name (fuel : nat) :
  ∃ e, generate_xsd_element untagged_classes (S (S fuel)) (Some 1%positive) None = Ok e ∧
       e = mkElement "xs:element" [("name", PyNone)]
             [mkElement "xs:complexType" []
                [mkElement "xs:sequence" []
                   [mkElement "xs:element"
                      [("name", PyStr "text"); ("type", PyStr "xs:string")] [] None]
                   None]
                None]
             None ∧
       get e "name" = Some PyNone ∧
       get e "name" ≠ Some (PyStr (__name__ (untagged_classes 1%positive))) ∧
       dump_etree e = TypeError.
Proof.
  eexists. split; [reflexivity |]. split; [reflexivity |].
  split; [reflexivity |]. split; [discriminate | reflexivity].
Qed.

(** C6: on a model class (given directly or as the annotation of the
    field) the element holds one xs:complexType with one xs:sequence,
    whose children are the elements generated for the fields of the
    class, one per field and in the declared order, and it has no [type]
    attribute; on anything else the element has no children and its
    [type] is the primitive-table entry of the type's [__name__], the
    name "str" standing in for an annotation that is None or empty. *)
Theorem record_and_scalar_types (depth fuel : nat) model field_info :
  well_formed classes depth (underlying_type model field_info) = true →
  depth ≤ fuel →
  ∃ e, generate_xsd_element classes (S fuel) model field_info = Ok e ∧
       match underlying_type model field_info with
       | AnnModel cls =>
           ∃ tags,
             children e =
               [mkElement "xs:complexType" []
                  [mkElement "xs:sequence" [] tags None] None] ∧
             get e "type" = None ∧
             Forall2
               (λ item t, generate_xsd_element classes fuel None (Some item.2) = Ok t)
               (model_fields (classes cls)) tags
       | AnnClass n | AnnAlias _ _ (Some n) => scalar_element e n
       | AnnNone | AnnListObj [] => scalar_element e "str"
       | _ => True
       end.
Proof.
  intros Hwf Hle.
  destruct (generate_total classes (S fuel) depth model field_info Hwf) as [e He]; [lia |].
  exists e. split; [exact He |].
  destruct (underlying_type model field_info) as [| n | cls | o args [n|] | [|i items]] eqn:E.
  3: {
    destruct (generate_model_inv _ _ _ _ _ _ E He) as (tags & Htags & ->).
    exists tags. rewrite children_cardinality, get_cardinality by done.
    rewrite get_append. cbn [children append].
    destruct (resolve_name_type classes model field_info (AnnModel cls)) as [-> ->].
    done.
  }
  all: try exact I.
  all: rewrite generate_scalar in He by (intros cls; rewrite E; discriminate).
  all: rewrite E in He; cbn in He; injection He as <-.
  all: split; [by rewrite children_cardinality, children_set,
                  (proj2 (resolve_name_type classes model field_info _)) |].
  all: eexists; split; [| apply primitive_table_get].
  all: rewrite get_cardinality by done; by rewrite get_set_eq.
Qed.

(** C9 (as amended): on every input whose type structure is well
    formed, of finite depth and with a [__name__] on every annotation
    object that is asked for one, the call returns an element whatever
    naming metadata is absent; with neither argument it returns the
    element named "Unknown" of type "xs:string". *)
Theorem total_on_well_formed_inputs (depth fuel : nat) model field_info :
  well_formed classes depth (underlying_type model field_info) = true →
  depth < fuel →
  (∃ e, generate_xsd_element classes fuel model field_info = Ok e) ∧
  generate_xsd_element classes fuel None None =
    Ok (mkElement "xs:element"
          [("name", PyStr "Unknown"); ("type", PyStr "xs:string")] [] None).
Proof.
  intros Hwf Hlt. split; [by eapply generate_total |].
  destruct fuel as [|fuel]; [lia | reflexivity].
Qed.

(** C10: when the model classes reachable from [m] form an acyclic type
    graph, a stack of bounded depth is enough for the call on [m]: each
    nested call works on the annotation of a field, whose rank is
    smaller. The guarantee stops at self-referential classes: there is
    one on which every depth of stack is exhausted. *)
Theorem recursion_terminates_on_acyclic_models (m : class_id) :
  acyclic_from classes m →
  (∃ fuel, ∀ fuel', fuel ≤ fuel' →
     generate_xsd_element classes fuel' (Some m) None ≠ OutOfFuel) ∧
  (∃ (classes' : class_id → Model) (m' : class_id),
     nested classes' m' m' ∧
     ∀ fuel, generate_xsd_element classes' fuel (Some m') None = OutOfFuel).
Proof.
  intros [rank Hrank]. split.
  - exists (rank m + 2). intros fuel' Hle.
    apply (generate_terminates classes m rank Hrank). cbn.
    split; [reflexivity | lia].
  - exists sample_classes, 4%positive. split.
    + eexists. split; [left | reflexivity].
    + assert (∀ fuel model field_info,
                underlying_type model field_info = AnnModel 4%positive →
                generate_xsd_element sample_classes fuel model field_info = OutOfFuel) as H.
      { induction fuel as [|fuel IH]; intros model field_info E; [reflexivity |].
        rewrite (generate_model _ _ _ _ _ E). cbn [sample_classes model_fields for_each].
        unfold append_body at 1. rewrite IH by reflexivity. reflexivity. }
      intros fuel. by apply H.
Qed.

End GeneratorClaims.

(** C9 (as stated) fails: a field whose annotation object has no
    [__name__] makes line 64 raise AttributeError, and a model class
    with a field annotated by the class itself exhausts the stack at
    every depth, so the generator does not return an element on every
    input. *)
Lemma generator_does_not_always_return :
  generate_xsd_element sample_classes 1 None (Some nameless_field) =
    Raise (AttributeError "__name__")
  ∧ (∀ fuel e, generate_xsd_element sample_classes fuel (Some 4%positive) None ≠ Ok e)
  ∧ ¬ always_returns.
Proof.
  split; [reflexivity |]. split.
  - intros fuel. apply (generate_self_nested sample_classes 4%positive); [| reflexivity].
    eexists. split; [left | reflexivity].
  - intros H. destruct (H sample_classes None (Some nameless_field)) as (fuel & e & He).
    destruct fuel; discriminate He.
Qed.

(** ** References *)

Lemma alter_middle {A} (f : A → A) (l1 : list A) x l2 :
  alter f (List.length l1) (l1 ++ x :: l2) = l1 ++ f x :: l2.
Proof. induction l1 as [|y l1 IH]; cbn; [reflexivity | by rewrite IH]. Qed.

Lemma update_at_middle t a l1 x l2 tx (i : nat) h f :
  i = List.length l1 →
  update_at (i :: h) f (mkElement t a (l1 ++ x :: l2) tx) =
  mkElement t a (l1 ++ update_at h f x :: l2) tx.
Proof. intros ->. cbn [update_at children tag attrib text]. by rewrite alter_middle. Qed.

Lemma SubElement_root x tag extra :
  SubElement x [] tag extra =
  (append x (new_element tag [] extra), [List.length (children x)]).
Proof. reflexivity. Qed.

(** Adding a node below a child is adding it in the child. *)
Lemma SubElement_middle t a l1 x l2 tx (i : nat) h tag extra :
  i = List.length l1 →
  SubElement (mkElement t a (l1 ++ x :: l2) tx) (i :: h) tag extra =
  (mkElement t a (l1 ++ (SubElement x h tag extra).1 :: l2) tx,
   i :: (SubElement x h tag extra).2).
Proof.
  intros ->. unfold SubElement.
  cbn [node_at children fst snd]. rewrite list_lookup_middle by reflexivity.
  rewrite update_at_middle by reflexivity. reflexivity.
Qed.

Lemma SubElement_second t a c x l2 tx h tag extra :
  SubElement (mkElement t a (c :: x :: l2) tx) (1 :: h) tag extra =
  (mkElement t a (c :: (SubElement x h tag extra).1 :: l2) tx,
   1 :: (SubElement x h tag extra).2).
Proof. exact (SubElement_middle t a [c] x l2 tx 1 h tag extra eq_refl). Qed.

Lemma SubElement_definitions_top A d t p s tail tag extra :
  SubElement (definitions A d t p s tail) [] tag extra =
  (definitions A d t p s (tail ++ [new_element tag [] extra]), [4 + List.length tail]).
Proof. reflexivity. Qed.

Lemma SubElement_definitions_port_type A d t p s tail h tag extra :
  SubElement (definitions A d t p s tail) (2 :: h) tag extra =
  (definitions A d t (SubElement p h tag extra).1 s tail,
   2 :: (SubElement p h tag extra).2).
Proof. exact (SubElement_middle _ A [d; t] p (s :: tail) None 2 h tag extra eq_refl). Qed.

Lemma SubElement_definitions_service A d t p s tail h tag extra :
  SubElement (definitions A d t p s tail) (3 :: h) tag extra =
  (definitions A d t p (SubElement s h tag extra).1 tail,
   3 :: (SubElement s h tag extra).2).
Proof. exact (SubElement_middle _ A [d; t; p] s tail None 3 h tag extra eq_refl). Qed.

Lemma SubElement_definitions_tail A d t p s l1 x l2 (i : nat) h tag extra :
  i = 4 + List.length l1 →
  SubElement (definitions A d t p s (l1 ++ x :: l2)) (i :: h) tag extra =
  (definitions A d t p s (l1 ++ (SubElement x h tag extra).1 :: l2),
   i :: (SubElement x h tag extra).2).
Proof.
  intros ->.
  exact (SubElement_middle _ A (d :: t :: p :: s :: l1) x l2 None _ h tag extra eq_refl).
Qed.

(** ** The WSDL assembler *)

Section AssemblerFacts.

Variable classes : class_id → Model.

(** One role with a model: a message under the root, an input or
    output under the portType operation, and one with its soap:body
    under the binding operation. *)
Lemma action_body_present method A d t pt_a ops op_a op_kids s tail
    b_a sb bop_a bop_kids msgs types action m :
  action_body classes method [2; List.length ops] [4 + List.length tail; 1]
    (definitions A d t
       (mkElement "wsdl:portType" pt_a
          (ops ++ [mkElement "wsdl:operation" op_a op_kids None]) None)
       s
       (tail ++
        mkElement "wsdl:binding" b_a
          [sb; mkElement "wsdl:operation" bop_a bop_kids None] None :: msgs),
     types)
    (action, Some m) =
  (definitions A d t
     (mkElement "wsdl:portType" pt_a
        (ops ++ [mkElement "wsdl:operation" op_a
                   (op_kids ++ [io_node method (action, m)]) None]) None)
     s
     (tail ++
      mkElement "wsdl:binding" b_a
        [sb; mkElement "wsdl:operation" bop_a
               (bop_kids ++ [binding_io_node method (action, m)]) None] None
        :: msgs ++ [message_node classes method (action, m)]),
   {[ m ]} ∪ types).
Proof.
  unfold action_body.
  rewrite SubElement_definitions_top. cbn iota.
  rewrite (SubElement_definitions_tail _ _ _ _ _ (tail ++ _ :: msgs) _ []) by reflexivity.
  rewrite SubElement_root. unfold append. cbn [fst snd children tag attrib text].
  rewrite SubElement_definitions_port_type.
  rewrite (SubElement_middle _ _ ops _ []) by reflexivity.
  rewrite SubElement_root. unfold append. cbn [fst snd children tag attrib text].
  rewrite <- (app_assoc tail). cbn [app].
  rewrite (SubElement_definitions_tail _ _ _ _ _ tail) by reflexivity.
  rewrite SubElement_second.
  rewrite SubElement_root. unfold append. cbn [fst snd app children tag attrib text].
  rewrite (SubElement_definitions_tail _ _ _ _ _ tail) by reflexivity.
  rewrite SubElement_second.
  rewrite (SubElement_middle _ _ bop_kids _ []) by reflexivity.
  rewrite SubElement_root. unfold append. cbn [fst snd app children tag attrib text].
  unfold message_node, io_node, binding_io_node, getattr. cbn [fst snd].
  by destruct (model_config_tag (classes m)).
Qed.

(** The loop over the roles of one operation. *)
Lemma fold_action_body method A d t pt_a ops op_a s tail b_a sb bop_a models :
  ∀ op_kids bop_kids msgs types,
    fold_left
      (action_body classes method [2; List.length ops] [4 + List.length tail; 1]) models
      (definitions A d t
         (mkElement "wsdl:portType" pt_a
            (ops ++ [mkElement "wsdl:operation" op_a op_kids None]) None)
         s
         (tail ++
          mkElement "wsdl:binding" b_a
            [sb; mkElement "wsdl:operation" bop_a bop_kids None] None :: msgs),
       types) =
    (definitions A d t
       (mkElement "wsdl:portType" pt_a
          (ops ++ [mkElement "wsdl:operation" op_a
                     (op_kids ++ map (io_node method) (present_roles models)) None]) None)
       s
       (tail ++
        mkElement "wsdl:binding" b_a
          [sb; mkElement "wsdl:operation" bop_a
                 (bop_kids ++ map (binding_io_node method) (present_roles models)) None]
          None
          :: msgs ++ map (message_node classes method) (present_roles models)),
     list_to_set (present_roles models).*2 ∪ types).
Proof.
  induction models as [|[action [m|]] models IH]; intros op_kids bop_kids msgs types;
    cbn [fold_left].
  - cbn. rewrite !app_nil_r. f_equal. set_solver.
  - rewrite action_body_present, IH. rewrite <- !app_assoc. f_equal. cbn. set_solver.
  - apply IH.
Qed.

(** One operation: its portType operation, its port, its binding and
    its messages. *)
Lemma method_body_nodes name request A d t pt_a ops s_a ports tail types item :
  method_body classes name request [2] [3]
    (definitions A d t
       (mkElement "wsdl:portType" pt_a ops None)
       (mkElement "wsdl:service" s_a ports None)
       tail,
     types)
    item =
  (definitions A d t
     (mkElement "wsdl:portType" pt_a (ops ++ [operation_node name item]) None)
     (mkElement "wsdl:service" s_a (ports ++ [port_node name request item]) None)
     (tail ++ operation_nodes classes name item),
   list_to_set (present_roles item.2).*2 ∪ types).
Proof.
  destruct item as [method models]. unfold method_body, new_element.
  (* operation_element *)
  rewrite SubElement_definitions_port_type.
  rewrite (SubElement_root (mkElement "wsdl:portType" _ _ _)).
  unfold append, new_element. cbn [fst snd app children tag attrib text List.length].
  (* binding_element *)
  rewrite SubElement_definitions_top.
  unfold new_element. cbn iota.
  (* soap:binding *)
  rewrite (SubElement_definitions_tail _ _ _ _ _ tail _ []) by reflexivity.
  rewrite (SubElement_root (mkElement "wsdl:binding" _ _ _)).
  unfold append, new_element. cbn [fst snd app children tag attrib text List.length].
  (* binding_operation *)
  rewrite (SubElement_definitions_tail _ _ _ _ _ tail _ []) by reflexivity.
  rewrite (SubElement_root (mkElement "wsdl:binding" _ _ _)).
  unfold append, new_element. cbn [fst snd app children tag attrib text List.length].
  (* soap:operation *)
  rewrite (SubElement_definitions_tail _ _ _ _ _ tail _ []) by reflexivity.
  rewrite SubElement_second.
  rewrite (SubElement_root (mkElement "wsdl:operation" _ _ _)).
  unfold append, new_element. cbn [fst snd app children tag attrib text List.length].
  (* port_element *)
  rewrite SubElement_definitions_service.
  rewrite (SubElement_root (mkElement "wsdl:service" _ _ _)).
  unfold append, new_element. cbn [fst snd app children tag attrib text List.length].
  (* soap:address *)
  rewrite SubElement_definitions_service.
  rewrite (SubElement_middle _ _ ports _ []) by reflexivity.
  rewrite (SubElement_root (mkElement "wsdl:port" _ _ _)).
  unfold append, new_element. cbn [fst snd app children tag attrib text List.length].
  (* the roles *)
  rewrite fold_action_body.
  reflexivity.
Qed.

(** The loop over the operations. *)
Lemma fold_method_body name request A d t pt_a s_a methods :
  ∀ ops ports tail types,
    fold_left (method_body classes name request [2] [3]) methods
      (definitions A d t
         (mkElement "wsdl:portType" pt_a ops None)
         (mkElement "wsdl:service" s_a ports None)
         tail,
       types) =
    (definitions A d t
       (mkElement "wsdl:portType" pt_a (ops ++ map (operation_node name) methods) None)
       (mkElement "wsdl:service" s_a (ports ++ map (port_node name request) methods) None)
       (tail ++ flat_map (operation_nodes classes name) methods),
     list_to_set (mentioned methods) ∪ types).
Proof.
  induction methods as [|item methods IH]; intros ops ports tail types; cbn [fold_left].
  - cbn. rewrite !app_nil_r. f_equal. set_solver.
  - rewrite method_body_nodes, IH. rewrite <- !app_assoc. f_equal.
    unfold mentioned. cbn [flat_map]. rewrite list_to_set_app_L. set_solver.
Qed.

(** [generate_wsdl] is the schema of the mentioned models put into the
    tree of the operations. *)
Lemma generate_wsdl_schema fuel name methods url request documentation :
  generate_wsdl classes fuel name methods url request documentation =
  generate_xsd_schema_etree classes fuel
    (elements (list_to_set (C := gset class_id) (mentioned methods)))
  ≫= λ schema, mret (wsdl_tree classes name methods request documentation schema).
Proof.
  transitivity
    (let '(wsdl, types) :=
       fold_left (method_body classes name request [2] [3]) methods
         (definitions (nsmap ++ [("name", PyStr name)])
            (mkElement "wsdl:documentation" [] [] (Some documentation))
            (mkElement "wsdl:types" [] [] None)
            (mkElement "wsdl:portType" [("name", PyStr name)] [] None)
            (mkElement "wsdl:service" [("name", PyStr name)] [] None)
            [],
          ∅) in
     generate_xsd_schema_etree classes fuel (elements types)
     ≫= λ schema, mret (append_at wsdl [1] schema)).
  { reflexivity. }
  rewrite fold_method_body. rewrite union_empty_r_L. reflexivity.
Qed.

Lemma elem_of_mentioned methods m :
  m ∈ mentioned methods ↔ referenced methods m.
Proof.
  unfold mentioned, referenced, present_roles. rewrite list_elem_of_In, in_flat_map. split.
  - intros ([method models] & Hitem & Hm). apply list_elem_of_In in Hitem, Hm.
    apply list_elem_of_fmap in Hm as ([action m'] & -> & Hrole).
    apply list_elem_of_omap in Hrole as ([action' [m''|]] & Hin & Heq); [| discriminate].
    cbn in Heq. injection Heq as <- <-.
    exists method, models, action'. done.
  - intros (method & models & action & Hitem & Hrole).
    exists (method, models). split; [by apply list_elem_of_In |].
    apply list_elem_of_In, list_elem_of_fmap. exists (action, m). split; [done |].
    apply list_elem_of_omap. exists (action, Some m). done.
Qed.

(** The element of a model class has a child, so line 82 keeps it. *)
Lemma generate_model_truthy fuel m t :
  generate_xsd_element classes fuel (Some m) None = Ok t → element_truthy t = true.
Proof.
  destruct fuel as [|fuel]; [discriminate |]. intros Ht.
  destruct (generate_model_inv classes fuel (Some m) None m t eq_refl Ht) as (tags & _ & ->).
  reflexivity.
Qed.

(** The loop of [generate_xsd_schema_etree]. *)
Lemma generate_xsd_schema_etree_Ok fuel ms tags :
  Forall2 (λ m t, generate_xsd_element classes fuel (Some m) None = Ok t) ms tags →
  generate_xsd_schema_etree classes fuel ms = Ok (mkElement "xs:schema" nsmap tags None).
Proof.
  unfold generate_xsd_schema_etree.
  change (mkElement "xs:schema" nsmap tags None)
    with (extend (new_element "xs:schema" nsmap []) tags).
  generalize (new_element "xs:schema" nsmap []).
  intros schema H. revert schema.
  induction H as [|m t ms tags Ht _ IH]; intros schema; cbn [for_each].
  - by rewrite extend_nil.
  - rewrite Ht. cbn. rewrite (generate_model_truthy _ _ _ Ht), IH.
    by rewrite extend_append.
Qed.

(** The whole of [generate_wsdl] on well-formed models: the tree, and
    the enumeration of the set [types] that line 166 turns into the
    schema. *)
Lemma generate_wsdl_Ok (depth fuel : nat) name methods url request documentation :
  (∀ m, referenced methods m → well_formed classes depth (AnnModel m) = true) →
  depth < fuel →
  ∃ ms tags,
    NoDup ms ∧
    (∀ m, m ∈ ms ↔ referenced methods m) ∧
    Forall2 (λ m t, generate_xsd_element classes fuel (Some m) None = Ok t) ms tags ∧
    generate_wsdl classes fuel name methods url request documentation =
    Ok (wsdl_tree classes name methods request documentation
          (mkElement "xs:schema" nsmap tags None)).
Proof.
  intros Hwf Hlt.
  set (ms := elements (list_to_set (C := gset class_id) (mentioned methods))).
  assert (∀ m, m ∈ ms ↔ referenced methods m) as Hms.
  { intros m. unfold ms. rewrite elem_of_elements, elem_of_list_to_set.
    apply elem_of_mentioned. }
  destruct (for_each_append_total
              (λ m, generate_xsd_element classes fuel (Some m) None) ms) as [tags Htags].
  { intros m Hm. apply (generate_total classes fuel depth); [| exact Hlt].
    apply Hwf, Hms, Hm. }
  exists ms, tags. split; [apply NoDup_elements |]. split; [exact Hms |].
  split; [exact Htags |].
  rewrite generate_wsdl_schema. fold ms.
  rewrite (generate_xsd_schema_etree_Ok _ _ _ Htags). reflexivity.
Qed.

End AssemblerFacts.

(** ** The claims on [generate_wsdl] *)

Lemma filter_tag_nil (t : string) (l : list Element) :
  (∀ e, e ∈ l → tag e ≠ t) → filter (λ c, tag c = t) l = [].
Proof.
  induction l as [|e l IH]; intros H; [reflexivity |].
  rewrite filter_cons_False by (apply H; left).
  apply IH. intros e' He'. apply H. by right.
Qed.

Lemma filter_tag_all (t : string) (l : list Element) :
  (∀ e, e ∈ l → tag e = t) → filter (λ c, tag c = t) l = l.
Proof.
  induction l as [|e l IH]; intros H; [reflexivity |].
  rewrite filter_cons_True by (apply H; left).
  f_equal. apply IH. intros e' He'. apply H. by right.
Qed.

Lemma present_roles_cons_Some action m models :
  present_roles ((action, Some m) :: models) = (action, m) :: present_roles models.
Proof. reflexivity. Qed.

Lemma present_roles_cons_None action models :
  present_roles ((action, None) :: models) = present_roles models.
Proof. reflexivity. Qed.

Lemma present_roles_nil models :
  (∀ action m, (action, Some m) ∉ models) → present_roles models = [].
Proof.
  induction models as [|[action [m|]] models IH]; intros H; [reflexivity | |].
  - destruct (H action m). left.
  - rewrite present_roles_cons_None. apply IH.
    intros action' m' Hin. apply (H action' m'). by right.
Qed.

(** A mapping that holds a request model and nothing else. *)
Lemma present_roles_request_only models m :
  ("request", Some m) ∈ models →
  (∀ action m', (action, Some m') ∈ models → action = "request") →
  NoDup models.*1 →
  present_roles models = [("request", m)].
Proof.
  induction models as [|[action [m'|]] models IH]; intros Hin Honly Hnd.
  - by apply elem_of_nil in Hin.
  - assert (action = "request") as -> by (apply (Honly action m'); left).
    apply NoDup_cons in Hnd as [Hfresh _].
    assert (∀ a x, (a, Some x) ∉ models) as Hnone.
    { intros a x Hax. apply Hfresh.
      assert (a = "request") as -> by (apply (Honly a x); by right).
      apply list_elem_of_fmap. by exists ("request", Some x). }
    apply elem_of_cons in Hin as [[= ->] | Hin]; [| by destruct (Hnone _ _ Hin)].
    by rewrite present_roles_cons_Some, (present_roles_nil _ Hnone).
  - apply NoDup_cons in Hnd as [_ Hnd].
    apply elem_of_cons in Hin as [[=] | Hin].
    rewrite present_roles_cons_None. apply IH; [exact Hin | | exact Hnd].
    intros a x Hax. apply (Honly a x). by right.
Qed.

Lemma elem_of_present_roles models action m :
  (action, m) ∈ present_roles models ↔ (action, Some m) ∈ models.
Proof.
  unfold present_roles. rewrite list_elem_of_omap. split.
  - intros ([a [x|]] & Hin & Heq); [| discriminate]. cbn in Heq. by injection Heq as -> ->.
  - intros Hin. by exists (action, Some m).
Qed.

Section AssemblerClaims.

Variable classes : class_id → Model.

Lemma operation_nodes_tags name methods e :
  e ∈ flat_map (operation_nodes classes name) methods →
  tag e = "wsdl:binding" ∨
  ∃ method models action m,
    (method, models) ∈ methods ∧ (action, Some m) ∈ models ∧
    e = message_node classes method (action, m).
Proof.
  rewrite list_elem_of_In, in_flat_map. intros ([method models] & Hitem & He).
  apply list_elem_of_In in Hitem, He.
  apply elem_of_cons in He as [-> | He]; [by left |]. right.
  apply list_elem_of_fmap in He as ([action m] & -> & Hrole).
  apply elem_of_present_roles in Hrole.
  by exists method, models, action, m.
Qed.

(** C3 (defect of the code): the wsdl:part of a role should point to
    the model by its wire tag name, the name the schema gives to the
    element of that model. Line 39 takes that name from [__xml_tag__],
    where a class declared with [tag="order"] keeps it; line 147 asks
    the model configuration for the entry "tag", which such a class
    does not have, and falls back to the class name: the part points
    to "Order" while the schema declares "order". *)
Theorem message_part_misses_the_xml_tag :
  ∃ tree part element,
    generate_wsdl faulty_classes 2 "Shop" [("Place", [("request", Some 2%positive)])]
      "http://host/svc" calculator_request "Sample service" = Ok tree ∧
    findall ["wsdl:message"] [tree] =
      [mkElement "wsdl:message" [("name", PyStr "PlaceRequest")] [part] None] ∧
    part = mkElement "wsdl:part"
             [("name", PyStr "parameters"); ("element", PyStr "Order")] [] None ∧
    findall ["wsdl:types"; "xs:schema"; "xs:element"] [tree] = [element] ∧
    generate_xsd_element faulty_classes 2 (Some 2%positive) None = Ok element ∧
    __xml_tag__ (faulty_classes 2%positive) = Some (PyStr "order") ∧
    get element "name" = Some (PyStr "order") ∧
    get part "element" ≠ get element "name".
Proof.
  do 3 eexists.
  split; [vm_compute; reflexivity |]. split; [vm_compute; reflexivity |].
  split; [reflexivity |]. split; [vm_compute; reflexivity |].
  split; [vm_compute; reflexivity |]. split; [reflexivity |].
  split; [reflexivity | discriminate].
Qed.

(** C4: wsdl:types holds one xs:schema, and the children of that schema
    are the elements generated for an enumeration without repetition of
    exactly the model classes that some operation has as its request or
    response: each such class gives one child, however many operations
    mention it. *)
Theorem each_model_once_in_schema (depth fuel : nat) name methods url request documentation :
  (∀ m, referenced methods m → well_formed classes depth (AnnModel m) = true) →
  depth < fuel →
  ∃ tree ms tags,
    generate_wsdl classes fuel name methods url request documentation = Ok tree ∧
    findall ["wsdl:types"] [tree] =
      [mkElement "wsdl:types" [] [mkElement "xs:schema" nsmap tags None] None] ∧
    NoDup ms ∧
    (∀ m, m ∈ ms ↔ referenced methods m) ∧
    Forall2 (λ m t, generate_xsd_element classes fuel (Some m) None = Ok t) ms tags.
Proof.
  intros Hwf Hlt.
  destruct (generate_wsdl_Ok classes depth fuel name methods url request documentation
              Hwf Hlt) as (ms & tags & Hnd & Hms & Htags & Htree).
  eexists _, ms, tags. split; [exact Htree |].
  split; [| done].
  cbn [findall flat_map]. rewrite app_nil_r. unfold find_children.
  cbn [children wsdl_tree].
  rewrite filter_cons_False by discriminate.
  rewrite filter_cons_True by reflexivity.
  rewrite !filter_cons_False by discriminate.
  rewrite filter_tag_nil; [reflexivity |].
  intros e He. apply operation_nodes_tags in He as [-> | (? & ? & ? & ? & _ & _ & ->)];
    discriminate.
Qed.

(** C8: an operation whose mapping holds a request model and no other
    model gets a portType operation whose only child is a wsdl:input,
    and a binding whose operation holds the soap:operation and one
    wsdl:input; nothing is raised for the absent role, and every
    wsdl:message of the tree stems from a role that has a model. *)
Theorem request_only_operation (depth fuel : nat) name methods url request documentation
    method models m :
  (∀ m', referenced methods m' → well_formed classes depth (AnnModel m') = true) →
  depth < fuel →
  (method, models) ∈ methods →
  ("request", Some m) ∈ models →
  (∀ action m', (action, Some m') ∈ models → action = "request") →
  NoDup models.*1 →
  ∃ tree,
    generate_wsdl classes fuel name methods url request documentation = Ok tree ∧
    mkElement "wsdl:operation" [("name", PyStr (name +:+ method))]
      [mkElement "wsdl:input" [("message", PyStr (method +:+ "Request"))] [] None] None
    ∈ findall ["wsdl:portType"; "wsdl:operation"] [tree] ∧
    mkElement "wsdl:binding"
      [("name", PyStr (name +:+ method)); ("type", PyStr name)]
      [mkElement "soap:binding"
         [("style", PyStr "document");
          ("transport", PyStr "http://schemas.xmlsoap.org/soap/http")] [] None;
       mkElement "wsdl:operation" [("name", PyStr (name +:+ method))]
         [mkElement "soap:operation" [("soapAction", PyStr method)] [] None;
          mkElement "wsdl:input" [("message", PyStr (method +:+ "Request"))]
            [mkElement "soap:body" [("use", PyStr "literal")] [] None] None]
         None]
      None
    ∈ findall ["wsdl:binding"] [tree] ∧
    (∀ msg, msg ∈ findall ["wsdl:message"] [tree] →
       ∃ method' models' action' m',
         (method', models') ∈ methods ∧ (action', Some m') ∈ models' ∧
         get msg "name" = Some (PyStr (method' +:+ title action'))).
Proof.
  intros Hwf Hlt Hitem Hreq Honly Hnd.
  destruct (generate_wsdl_Ok classes depth fuel name methods url request documentation
              Hwf Hlt) as (ms & tags & _ & _ & _ & Htree).
  pose proof (present_roles_request_only models m Hreq Honly Hnd) as Hroles.
  eexists. split; [exact Htree |].
  cbn [findall flat_map]. rewrite !app_nil_r. unfold find_children.
  cbn [children wsdl_tree]. split; [| split].
  - rewrite !filter_cons_False by discriminate.
    rewrite filter_cons_True by reflexivity.
    rewrite filter_cons_False by discriminate.
    rewrite filter_tag_nil.
    2: { intros e He.
         apply operation_nodes_tags in He as [-> | (? & ? & ? & ? & _ & _ & ->)];
           discriminate. }
    cbn [flat_map children]. rewrite app_nil_r.
    apply list_elem_of_filter. split; [reflexivity |].
    apply list_elem_of_fmap. exists (method, models). split; [| exact Hitem].
    unfold operation_node. cbn [fst snd]. rewrite Hroles. reflexivity.
  - apply list_elem_of_filter. split; [reflexivity |]. do 4 right.
    apply list_elem_of_In, in_flat_map. exists (method, models).
    split; [by apply list_elem_of_In |].
    apply list_elem_of_In, elem_of_cons. left.
    unfold binding_node. cbn [fst snd]. rewrite Hroles. reflexivity.
  - intros msg Hmsg. apply list_elem_of_filter in Hmsg as [Htag Hmsg].
    do 4 (apply elem_of_cons in Hmsg as [-> | Hmsg]; [discriminate Htag |]).
    apply operation_nodes_tags in Hmsg as [Hb | (method' & models' & action' & m' & H1 & H2 & ->)].
    + rewrite Hb in Htag. discriminate Htag.
    + by exists method', models', action', m'.
Qed.

End AssemblerClaims.

(** ** The Calculator service *)

Lemma base_url_components :
  urlsplit "http://host/svc?x=1#frag" =
  {| scheme := "http"; netloc := "host"; url_path := "/svc";
     query := "x=1"; fragment := "frag" |}.
Proof. reflexivity. Qed.

Lemma sample_models_well_formed (m : class_id) :
  referenced sample_methods m → well_formed sample_classes 2 (AnnModel m) = true.
Proof.
  intros H. apply elem_of_mentioned in H.
  change (mentioned sample_methods)
    with [3%positive; 1%positive; 2%positive; 1%positive; 2%positive] in H.
  repeat (apply elem_of_cons in H as [-> | H]; [reflexivity |]).
  by apply elem_of_nil in H.
Qed.

Lemma calculator_models_well_formed (m : class_id) :
  referenced calculator_methods m → well_formed sample_classes 1 (AnnModel m) = true.
Proof.
  intros H. apply elem_of_mentioned in H.
  change (mentioned calculator_methods) with [1%positive; 2%positive] in H.
  repeat (apply elem_of_cons in H as [-> | H]; [reflexivity |]).
  by apply elem_of_nil in H.
Qed.

(** The [url] argument of [generate_wsdl] has no part in the result. *)
Lemma url_argument_is_not_read classes fuel name methods url url' request documentation :
  generate_wsdl classes fuel name methods url request documentation =
  generate_wsdl classes fuel name methods url' request documentation.
Proof. reflexivity. Qed.

(** C7: for the service "Calculator" with the one operation "Add",
    request and response models tagged AddRequest and AddResponse, and
    the request URL http://host/svc?x=1#frag, the tree has the
    soap:address location http://host/svc/Add, the messages AddRequest
    and AddResponse, and the portType operation CalculatorAdd. *)
Theorem calculator_example (fuel : nat) (url documentation : string) :
  ∃ tree,
    generate_wsdl sample_classes (S (S fuel)) "Calculator" calculator_methods url
      calculator_request documentation = Ok tree ∧
    map (λ e, get e "location")
        (findall ["wsdl:service"; "wsdl:port"; "soap:address"] [tree]) =
      [Some (PyStr "http://host/svc/Add")] ∧
    map (λ e, get e "name") (findall ["wsdl:message"] [tree]) =
      [Some (PyStr "AddRequest"); Some (PyStr "AddResponse")] ∧
    map (λ e, get e "name") (findall ["wsdl:portType"; "wsdl:operation"] [tree]) =
      [Some (PyStr "CalculatorAdd")].
Proof.
  destruct (generate_wsdl_Ok sample_classes 1 (S (S fuel)) "Calculator" calculator_methods
              url calculator_request documentation calculator_models_well_formed)
    as (ms & tags & _ & _ & _ & Htree); [lia |].
  eexists. split; [exact Htree |].
  repeat split; vm_compute; reflexivity.
Qed.

(** ** The theorems at sample inputs *)

Lemma sample_batch_acyclic : acyclic_from sample_classes 3%positive.
Proof.
  exists (λ c, match c with 3%positive => 1 | _ => 0 end).
  assert (∀ c, rtc (nested sample_classes) 3%positive c →
               c = 3%positive ∨ c = 1%positive) as Hreach.
  { intros c Hc.
    apply (rtc_ind_r (R := nested sample_classes)
             (λ c, c = 3%positive ∨ c = 1%positive) 3%positive);
      [by left | | exact Hc].
    clear c Hc. intros c c' _ Hn IH.
    destruct Hn as (item & Hitem & Hann). right.
    destruct IH as [-> | ->]; cbn in Hitem.
    - apply elem_of_cons in Hitem as [-> | Hitem]; [by injection Hann |].
      apply elem_of_cons in Hitem as [-> | Hitem]; [discriminate Hann |].
      by apply elem_of_nil in Hitem.
    - apply elem_of_cons in Hitem as [-> | Hitem]; [discriminate Hann |].
      apply elem_of_cons in Hitem as [-> | Hitem]; [discriminate Hann |].
      by apply elem_of_nil in Hitem. }
  intros c c' Hc (item & Hitem & Hann).
  destruct (Hreach c Hc) as [-> | ->]; cbn in Hitem.
  - apply elem_of_cons in Hitem as [-> | Hitem]; [injection Hann as <-; lia |].
    apply elem_of_cons in Hitem as [-> | Hitem]; [discriminate Hann |].
    by apply elem_of_nil in Hitem.
  - apply elem_of_cons in Hitem as [-> | Hitem]; [discriminate Hann |].
    apply elem_of_cons in Hitem as [-> | Hitem]; [discriminate Hann |].
    by apply elem_of_nil in Hitem.
Qed.

Lemma field_name_precedence_at_sample :
  well_formed sample_classes 0 (FieldInfo.annotation (int_field (PyStr "a"))) = true ∧
  0 < 1 ∧
  ∃ e, generate_xsd_element sample_classes 1 None (Some (int_field (PyStr "a"))) = Ok e ∧
       get e "name" = Some (PyStr "a").
Proof.
  split; [reflexivity |]. split; [lia |].
  apply (field_name_precedence sample_classes 0 1 (int_field (PyStr "a")));
    [reflexivity | lia].
Defined.

Lemma record_and_scalar_types_at_sample :
  well_formed sample_classes 2 (underlying_type (Some 3%positive) None) = true ∧
  2 ≤ 2 ∧
  ∃ e, generate_xsd_element sample_classes 3 (Some 3%positive) None = Ok e ∧
       ∃ tags,
         children e =
           [mkElement "xs:complexType" []
              [mkElement "xs:sequence" [] tags None] None] ∧
         get e "type" = None ∧
         Forall2
           (λ item t, generate_xsd_element sample_classes 2 None (Some item.2) = Ok t)
           (model_fields (sample_classes 3%positive)) tags.
Proof.
  split; [reflexivity |]. split; [lia |].
  apply (record_and_scalar_types sample_classes 2 2 (Some 3%positive) None);
    [reflexivity | lia].
Defined.

Lemma total_on_well_formed_inputs_at_sample :
  well_formed sample_classes 2 (underlying_type (Some 3%positive) None) = true ∧
  2 < 3 ∧
  (∃ e, generate_xsd_element sample_classes 3 (Some 3%positive) None = Ok e) ∧
  generate_xsd_element sample_classes 3 None None =
    Ok (mkElement "xs:element"
          [("name", PyStr "Unknown"); ("type", PyStr "xs:string")] [] None).
Proof.
  split; [reflexivity |]. split; [lia |].
  apply (total_on_well_formed_inputs sample_classes 2 3 (Some 3%positive) None);
    [reflexivity | lia].
Defined.

Lemma recursion_terminates_at_sample :
  (∃ fuel, ∀ fuel', fuel ≤ fuel' →
     generate_xsd_element sample_classes fuel' (Some 3%positive) None ≠ OutOfFuel) ∧
  (∃ (classes' : class_id → Model) (m' : class_id),
     nested classes' m' m' ∧
     ∀ fuel, generate_xsd_element classes' fuel (Some m') None = OutOfFuel).
Proof.
  apply (recursion_terminates_on_acyclic_models sample_classes 3%positive).
  exact sample_batch_acyclic.
Defined.

Lemma each_model_once_in_schema_at_sample :
  ∃ tree ms tags,
    generate_wsdl sample_classes 3 "Calculator" sample_methods "http://host/svc"
      calculator_request "Sample service" =
      Ok tree ∧
    findall ["wsdl:types"] [tree] =
      [mkElement "wsdl:types" [] [mkElement "xs:schema" nsmap tags None] None] ∧
    NoDup ms ∧
    (∀ m, m ∈ ms ↔ referenced sample_methods m) ∧
    Forall2 (λ m t, generate_xsd_element sample_classes 3 (Some m) None = Ok t) ms tags.
Proof.
  apply (each_model_once_in_schema sample_classes 2 3 "Calculator" sample_methods
           "http://host/svc" calculator_request "Sample service").
  - exact sample_models_well_formed.
  - lia.
Defined.

Lemma request_only_operation_at_sample :
  ∃ tree,
    generate_wsdl sample_classes 3 "Calculator" sample_methods "http://host/svc"
      calculator_request "Sample service" =
      Ok tree ∧
    mkElement "wsdl:operation" [("name", PyStr "CalculatorNotify")]
      [mkElement "wsdl:input" [("message", PyStr "NotifyRequest")] [] None] None
    ∈ findall ["wsdl:portType"; "wsdl:operation"] [tree] ∧
    mkElement "wsdl:binding"
      [("name", PyStr "CalculatorNotify"); ("type", PyStr "Calculator")]
      [mkElement "soap:binding"
         [("style", PyStr "document");
          ("transport", PyStr "http://schemas.xmlsoap.org/soap/http")] [] None;
       mkElement "wsdl:operation" [("name", PyStr "CalculatorNotify")]
         [mkElement "soap:operation" [("soapAction", PyStr "Notify")] [] None;
          mkElement "wsdl:input" [("message", PyStr "NotifyRequest")]
            [mkElement "soap:body" [("use", PyStr "literal")] [] None] None]
         None]
      None
    ∈ findall ["wsdl:binding"] [tree] ∧
    (∀ msg, msg ∈ findall ["wsdl:message"] [tree] →
       ∃ method' models' action' m',
         (method', models') ∈ sample_methods ∧ (action', Some m') ∈ models' ∧
         get msg "name" = Some (PyStr (method' +:+ title action'))).
Proof.
  apply (request_only_operation sample_classes 2 3 "Calculator" sample_methods
           "http://host/svc" calculator_request "Sample service" "Notify"
           [("request", Some 3%positive); ("response", None)] 3%positive).
  - exact sample_models_well_formed.
  - lia.
  - left.
  - left.
  - intros action m' H.
    apply elem_of_cons in H as [[= -> _] | H]; [reflexivity |].
    apply elem_of_cons in H as [[=] | H]. by apply elem_of_nil in H.
  - apply NoDup_cons. split; [| apply NoDup_singleton].
    intros H. apply elem_of_cons in H as [[=] | H]. by apply elem_of_nil in H.
Defined.

(** * Further properties *)

(** ** The schema element generator *)

Lemma xsd_shaped_fields (fields : list Element) :
  (fix all (l : list Element) : Prop :=
     match l with
     | [] => True
     | f :: l' => xsd_shaped f ∧ all l'
     end) fields ↔ Forall xsd_shaped fields.
Proof.
  induction fields as [|f fields IH]; [by split |].
  rewrite Forall_cons, <- IH. reflexivity.
Qed.

Lemma table_value_is_xsd_type n :
  dict_get PYTHON_XSD_TYPE_MAP n "string" ∈ xsd_type_names.
Proof.
  unfold dict_get, PYTHON_XSD_TYPE_MAP, xsd_type_names. cbn [dict_lookup].
  repeat match goal with
         | |- context [String.eqb ?k n] => destruct (String.eqb k n)
         end;
    cbn [getattr]; set_solver.
Qed.

Lemma cardinality_attrib t a kids tx field_info :
  dict_lookup a "minOccurs" = None →
  dict_lookup a "maxOccurs" = None →
  ∃ occurs,
    occurs ∈ occurrence_attributes ∧
    cardinality (mkElement t a kids tx) field_info =
    mkElement t (a ++ occurs) kids tx.
Proof.
  intros Hmin Hmax.
  assert (∀ (d : list (string * pyval)) k v,
            dict_lookup d k = None → dict_set d k v = d ++ [(k, v)]) as Hset.
  { intros d k v. induction d as [|[k' v'] d IH]; cbn; [done |].
    destruct (String.eqb k' k); [discriminate |]. intros H. by rewrite IH. }
  unfold cardinality. destruct field_info as [f|].
  2: { exists []. split; [set_solver | by rewrite app_nil_r]. }
  destruct (isinstance_list _).
  - exists [("minOccurs", PyStr "0"); ("maxOccurs", PyStr "unbounded")].
    split; [set_solver |]. unfold set. cbn [tag attrib children text].
    rewrite (Hset a) by done. rewrite Hset.
    + by rewrite <- app_assoc.
    + rewrite <- Hmax. clear. induction a as [|[k v] d IH]; cbn; [done |].
      by destruct (String.eqb k "maxOccurs").
  - destruct (FieldInfo.default f).
    + exists []. split; [set_solver | by rewrite app_nil_r].
    + exists [("minOccurs", PyStr "0")]. split; [set_solver |].
      unfold set. cbn [tag attrib children text]. by rewrite Hset.
Qed.

Section FurtherGenerator.

Variable classes : class_id → Model.

Lemma resolve_name_element model field_info u :
  ∃ name,
    resolve_name classes (new_element "xs:element" [] []) model field_info u =
    mkElement "xs:element" [("name", name)] [] None.
Proof.
  unfold resolve_name. destruct model as [m|]; [by eexists |].
  destruct field_info as [f|]; [by eexists |].
  destruct (ann_xml_tag classes u); by eexists.
Qed.

Lemma generate_shaped fuel :
  ∀ model field_info e,
    generate_xsd_element classes fuel model field_info = Ok e → xsd_shaped e.
Proof.
  induction fuel as [|fuel IH]; intros model field_info e He; [discriminate |].
  destruct (underlying_type model field_info) as [| | cls | |] eqn:E.
  3: {
    destruct (generate_model_inv _ _ _ _ _ _ E He) as (tags & Htags & ->).
    destruct (resolve_name_element model field_info (AnnModel cls)) as [nm ->].
    unfold append. cbn [tag attrib children text app].
    destruct (cardinality_attrib "xs:element" [("name", nm)]
                [mkElement "xs:complexType" [] [mkElement "xs:sequence" [] tags None] None]
                None field_info eq_refl eq_refl) as (occurs & Hoccurs & ->).
    cbn [xsd_shaped app]. split; [done |]. split; [done |].
    exists nm, occurs. split; [exact Hoccurs |].
    repeat (split; [done |]).
    apply xsd_shaped_fields.
    apply list.Forall_forall. intros t Ht.
    apply list_elem_of_lookup in Ht as [i Hi].
    destruct (Forall2_lookup_r _ _ _ _ _ Htags Hi) as (item & _ & Hgen).
    by eapply IH.
  }
  all: rewrite generate_scalar in He by (intros cls; rewrite E; discriminate).
  all: apply bind_Ok in He as (n & _ & [= <-]).
  all: destruct (resolve_name_element model field_info
                   (underlying_type model field_info)) as [nm Hname].
  all: rewrite Hname.
  all: unfold set; cbn [tag attrib children text dict_set String.eqb Ascii.eqb Bool.eqb].
  all: destruct (cardinality_attrib "xs:element"
                   [("name", nm);
                    ("type", PyStr ("xs:" +:+ dict_get PYTHON_XSD_TYPE_MAP n "string"))]
                   [] None field_info eq_refl eq_refl) as (occurs & Hoccurs & ->).
  all: cbn [xsd_shaped app]; split; [done |]; split; [done |].
  all: exists nm, occurs; split; [exact Hoccurs |].
  all: eexists; split; [apply table_value_is_xsd_type | reflexivity].
Qed.

End FurtherGenerator.

Lemma for_each_append_first_failure {A} (g : A → result Element) pre x post r :
  Forall (λ i, ∃ t, g i = Ok t) pre →
  g x = r → (∀ t, r ≠ Ok t) →
  ∀ seq, for_each (append_body g) (pre ++ x :: post) seq = r.
Proof.
  intros Hpre Hx Hr. induction Hpre as [|i pre [t Ht] _ IH]; intros seq; cbn [app for_each].
  - change (append_body g seq x) with (g x ≫= λ tag, mret (append seq tag)).
    rewrite Hx. destruct r as [t| |]; [by destruct (Hr t) | reflexivity | reflexivity].
  - change (append_body g seq i) with (g i ≫= λ tag, mret (append seq tag)).
    rewrite Ht. apply IH.
Qed.

Section FurtherGeneratorProperties.

Variable classes : class_id → Model.

(** X1: a returned element has minOccurs, and then with the value "0",
    exactly when a field descriptor was given whose annotation is a
    list object or whose default is set; it has maxOccurs, and then
    with the value "unbounded", exactly when a field descriptor was
    given whose annotation is a list object. An element made for a
    model class alone has neither. *)
Theorem occurrence_attributes_of_an_element fuel model field_info e :
  generate_xsd_element classes fuel model field_info = Ok e →
  (get e "minOccurs" = Some (PyStr "0") ∨ get e "minOccurs" = None) ∧
  (get e "minOccurs" ≠ None ↔
   ∃ f, field_info = Some f ∧
        (isinstance_list (FieldInfo.annotation f) = true ∨
         ∃ v, FieldInfo.default f = Default v)) ∧
  (get e "maxOccurs" = Some (PyStr "unbounded") ∨ get e "maxOccurs" = None) ∧
  (get e "maxOccurs" ≠ None ↔
   ∃ f, field_info = Some f ∧ isinstance_list (FieldInfo.annotation f) = true).
Proof.
  intros He. pose proof (generate_occurs classes _ _ _ _ He) as H.
  destruct field_info as [f|].
  - destruct (isinstance_list (FieldInfo.annotation f)) eqn:El.
    + injection H as -> ->. repeat split; eauto; try discriminate.
    + destruct (FieldInfo.default f) as [|v] eqn:Ed; injection H as -> ->.
      * repeat split; eauto; try done.
        -- intros (f' & [= <-] & [Hl | [v Hv]]); congruence.
        -- intros (f' & [= <-] & Hl); congruence.
      * repeat split; eauto; try done.
        intros (f' & [= <-] & Hl); congruence.
  - injection H as -> ->. repeat split; eauto; try done.
    + intros (f & [=] & _).
    + intros (f & [=] & _).
Qed.

(** X2: called on a field descriptor alone, the generator returns an
    element with maxOccurs only when the annotation is the empty list
    object, and that element is a scalar of type xs:string: line 64
    raises on every other list object before line 69 is reached. *)
Theorem repeated_branch_needs_the_empty_list fuel f e :
  generate_xsd_element classes fuel None (Some f) = Ok e →
  get e "maxOccurs" ≠ None →
  FieldInfo.annotation f = AnnListObj [] ∧
  get e "type" = Some (PyStr "xs:string") ∧
  children e = [].
Proof.
  intros He Hmax.
  pose proof (generate_occurs classes _ _ _ _ He) as H.
  cbv beta iota in H.
  destruct (FieldInfo.annotation f) as [| | | |[|i items]] eqn:Ea;
    cbn [isinstance_list] in H;
    try (destruct (FieldInfo.default f); injection H as _ H; congruence).
  - split; [reflexivity |].
    destruct fuel as [|fuel]; [discriminate |].
    rewrite generate_scalar in He by (intros cls; cbn; rewrite Ea; discriminate).
    cbn [underlying_type] in He. rewrite Ea in He.
    cbn [ann_truthy mbind mret result_bind result_ret] in He. injection He as <-.
    unfold cardinality. rewrite Ea. cbn [isinstance_list].
    rewrite !get_set_ne by done. rewrite get_set_eq.
    split; reflexivity.
  - destruct fuel as [|fuel]; [discriminate |].
    rewrite generate_scalar in He by (intros cls; cbn; rewrite Ea; discriminate).
    cbn [underlying_type] in He. rewrite Ea in He. discriminate He.
Qed.

(** X3: every element the generator returns, at every level, is an
    xs:element without text whose attributes are the name, then the
    type when it has no child, then the occurrence attributes; it has
    either a type from the primitive table and no child, or no type
    and one xs:complexType holding one xs:sequence of such elements. *)
Theorem generated_element_is_well_shaped fuel model field_info e :
  generate_xsd_element classes fuel model field_info = Ok e → xsd_shaped e.
Proof. apply generate_shaped. Qed.

(** X4: when both a model class and a field descriptor are given, the
    class decides the name and the content, and of the descriptor only
    the occurrence attributes are used: the result is the element of
    the class alone with the cardinality of the field applied. *)
Theorem model_takes_precedence_over_field fuel m f :
  generate_xsd_element classes fuel (Some m) (Some f) =
  generate_xsd_element classes fuel (Some m) None
  ≫= λ e, mret (cardinality e (Some f)).
Proof.
  destruct fuel as [|fuel]; [reflexivity |].
  rewrite (generate_model classes fuel (Some m) (Some f) m eq_refl).
  rewrite (generate_model classes fuel (Some m) None m eq_refl).
  rewrite bind_mret_bind. reflexivity.
Qed.

(** X5: a field annotated with a model class gets the content of that
    class inlined: whenever the class's own element can be generated,
    so can the field's, with the same children and no type attribute;
    only the name and the occurrence attributes are the field's. *)
Theorem nested_model_is_inlined fuel f m e_m :
  FieldInfo.annotation f = AnnModel m →
  generate_xsd_element classes fuel (Some m) None = Ok e_m →
  ∃ e_f, generate_xsd_element classes fuel None (Some f) = Ok e_f ∧
         children e_f = children e_m ∧
         get e_f "type" = None.
Proof.
  intros Ha Hm. destruct fuel as [|fuel]; [discriminate |].
  destruct (generate_model_inv classes fuel (Some m) None m e_m eq_refl Hm)
    as (tags & Htags & ->).
  eexists. split.
  - apply (generate_model_Ok classes fuel None (Some f) m tags); [exact Ha | exact Htags].
  - rewrite !children_cardinality, get_cardinality by done. split; [reflexivity |].
    rewrite get_append. apply resolve_name_type.
Qed.

(** X6: an exception in a field aborts the whole model: when the
    fields before it generate and the field itself raises, the call on
    the model class raises the same exception. *)
Theorem first_failing_field_aborts_the_model fuel m pre item post x :
  model_fields (classes m) = pre ++ item :: post →
  Forall (λ i, ∃ t, generate_xsd_element classes fuel None (Some i.2) = Ok t) pre →
  generate_xsd_element classes fuel None (Some item.2) = Raise x →
  generate_xsd_element classes (S fuel) (Some m) None = Raise x.
Proof.
  intros Hfields Hpre Hitem.
  rewrite (generate_model classes fuel (Some m) None m eq_refl), Hfields.
  rewrite (for_each_append_first_failure
             (λ item, generate_xsd_element classes fuel None (Some item.2))
             pre item post (Raise x) Hpre Hitem) by discriminate.
  reflexivity.
Qed.

(** X7: [generate_xsd_schema_etree] returns an xs:schema that carries
    the four namespace declarations and one child per entry of its
    list, in the order of the list and with repeated entries repeated;
    the truth test of line 82 drops none of them. *)
Theorem schema_has_one_child_per_entry (depth fuel : nat) (models : list class_id) :
  (∀ m, m ∈ models → well_formed classes depth (AnnModel m) = true) →
  depth < fuel →
  ∃ tags,
    generate_xsd_schema_etree classes fuel models =
      Ok (mkElement "xs:schema" nsmap tags None) ∧
    Forall2 (λ m t, generate_xsd_element classes fuel (Some m) None = Ok t) models tags.
Proof.
  intros Hwf Hlt.
  destruct (for_each_append_total
              (λ m, generate_xsd_element classes fuel (Some m) None) models) as [tags Htags].
  { intros m Hm. apply (generate_total classes fuel depth); [by apply Hwf | exact Hlt]. }
  exists tags. split; [by apply generate_xsd_schema_etree_Ok | exact Htags].
Qed.

End FurtherGeneratorProperties.

(** ** The WSDL assembler *)

Lemma rstrip_has_no_trailing (ch : ascii) (s s' : string) :
  rstrip ch s ≠ s' +:+ String ch EmptyString.
Proof.
  revert s'. induction s as [|c s IH]; intros s'; cbn [rstrip].
  - by destruct s'.
  - destruct (rstrip ch s) as [|d r] eqn:E.
    + destruct (Ascii.eqb_spec c ch) as [-> | Hne].
      * by destruct s'.
      * destruct s' as [|c' s'']; cbn [String.append].
        -- intros [= Hc]. by apply Hne.
        -- intros [= _ H]. by destruct s''.
    + destruct s' as [|c' s'']; cbn [String.append]; [discriminate |].
      intros [= _ H]. by apply (IH s'').
Qed.

Section FurtherAssembler.

Variable classes : class_id → Model.

Lemma generate_xsd_schema_etree_inv fuel ms schema :
  generate_xsd_schema_etree classes fuel ms = Ok schema →
  ∃ tags,
    Forall2 (λ m t, generate_xsd_element classes fuel (Some m) None = Ok t) ms tags ∧
    schema = mkElement "xs:schema" nsmap tags None.
Proof.
  unfold generate_xsd_schema_etree.
  change (mkElement "xs:schema" nsmap ?tags None)
    with (extend (new_element "xs:schema" nsmap []) tags).
  generalize (new_element "xs:schema" nsmap []). revert schema.
  induction ms as [|m ms IH]; intros schema s0; cbn [for_each].
  - intros [= <-]. exists []. split; [constructor | by rewrite extend_nil].
  - intros H. apply bind_Ok in H as (s1 & H1 & H2).
    apply bind_Ok in H1 as (t & Ht & [= <-]).
    rewrite (generate_model_truthy _ _ _ _ Ht) in H2.
    destruct (IH _ _ H2) as (tags & Htags & ->).
    exists (t :: tags). split; [by constructor | by rewrite extend_append].
Qed.

Lemma generate_wsdl_inv fuel name methods url request documentation tree :
  generate_wsdl classes fuel name methods url request documentation = Ok tree →
  ∃ tags,
    Forall2 (λ m t, generate_xsd_element classes fuel (Some m) None = Ok t)
      (elements (list_to_set (C := gset class_id) (mentioned methods))) tags ∧
    tree = wsdl_tree classes name methods request documentation
             (mkElement "xs:schema" nsmap tags None).
Proof.
  rewrite generate_wsdl_schema. intros H.
  apply bind_Ok in H as (schema & Hschema & [= <-]).
  apply generate_xsd_schema_etree_inv in Hschema as (tags & Htags & ->).
  by exists tags.
Qed.

Lemma operation_nodes_not_tagged name methods (t : string) :
  t ≠ "wsdl:binding" → t ≠ "wsdl:message" →
  filter (λ c, tag c = t) (flat_map (operation_nodes classes name) methods) = [].
Proof.
  intros Hb Hm. apply filter_tag_nil. intros e He.
  apply operation_nodes_tags in He as [-> | (? & ? & ? & ? & _ & _ & ->)]; cbn; congruence.
Qed.

Lemma findall_operations name methods request documentation schema :
  findall ["wsdl:portType"; "wsdl:operation"]
    [wsdl_tree classes name methods request documentation schema] =
  map (operation_node name) methods.
Proof.
  cbn [findall flat_map]. rewrite !app_nil_r. unfold find_children at 2.
  cbn [children wsdl_tree].
  rewrite !filter_cons_False by discriminate.
  rewrite filter_cons_True by reflexivity.
  rewrite filter_cons_False by discriminate.
  rewrite operation_nodes_not_tagged by discriminate.
  cbn [flat_map]. rewrite app_nil_r. unfold find_children. cbn [children].
  apply filter_tag_all. intros e He.
  by apply list_elem_of_fmap in He as (item & -> & _).
Qed.

Lemma findall_ports name methods request documentation schema :
  findall ["wsdl:service"; "wsdl:port"]
    [wsdl_tree classes name methods request documentation schema] =
  map (port_node name request) methods.
Proof.
  cbn [findall flat_map]. rewrite !app_nil_r. unfold find_children at 2.
  cbn [children wsdl_tree].
  rewrite !filter_cons_False by discriminate.
  rewrite filter_cons_True by reflexivity.
  rewrite operation_nodes_not_tagged by discriminate.
  cbn [flat_map]. rewrite app_nil_r. unfold find_children. cbn [children].
  apply filter_tag_all. intros e He.
  by apply list_elem_of_fmap in He as (item & -> & _).
Qed.

Lemma findall_bindings name methods request documentation schema :
  findall ["wsdl:binding"]
    [wsdl_tree classes name methods request documentation schema] =
  map (binding_node name) methods.
Proof.
  cbn [findall flat_map]. rewrite !app_nil_r. unfold find_children.
  cbn [children wsdl_tree].
  rewrite !filter_cons_False by discriminate.
  induction methods as [|item methods IH]; [reflexivity |].
  cbn [flat_map map]. unfold operation_nodes at 1. cbn [app].
  rewrite filter_cons_True by reflexivity. rewrite filter_app, IH.
  rewrite filter_tag_nil; [reflexivity |].
  intros e He. by apply list_elem_of_fmap in He as (r & -> & _).
Qed.

Lemma findall_messages name methods request documentation schema :
  findall ["wsdl:message"]
    [wsdl_tree classes name methods request documentation schema] =
  flat_map (λ item, map (message_node classes item.1) (present_roles item.2)) methods.
Proof.
  cbn [findall flat_map]. rewrite !app_nil_r. unfold find_children.
  cbn [children wsdl_tree].
  rewrite !filter_cons_False by discriminate.
  induction methods as [|item methods IH]; [reflexivity |].
  cbn [flat_map]. unfold operation_nodes at 1. cbn [app].
  rewrite filter_cons_False by discriminate. rewrite filter_app, IH.
  rewrite filter_tag_all; [reflexivity |].
  intros e He. by apply list_elem_of_fmap in He as (r & -> & _).
Qed.

End FurtherAssembler.

Section FurtherAssemblerProperties.

Variable classes : class_id → Model.

Lemma findall_soap_operations name methods request documentation schema :
  findall ["wsdl:binding"; "wsdl:operation"; "soap:operation"]
    [wsdl_tree classes name methods request documentation schema] =
  map (λ item, mkElement "soap:operation" [("soapAction", PyStr item.1)] [] None) methods.
Proof.
  change (findall ["wsdl:binding"; "wsdl:operation"; "soap:operation"] ?l)
    with (flat_map (find_children "soap:operation")
            (flat_map (find_children "wsdl:operation") (findall ["wsdl:binding"] l))).
  rewrite findall_bindings.
  induction methods as [|item methods IH]; [reflexivity |].
  cbn [map flat_map]. rewrite flat_map_app, IH.
  unfold find_children at 2. cbn [children binding_node].
  rewrite filter_cons_False by discriminate.
  rewrite filter_cons_True by reflexivity.
  cbn [filter list_filter flat_map app]. unfold find_children at 1. cbn [children].
  rewrite filter_cons_True by reflexivity.
  rewrite filter_tag_nil; [reflexivity |].
  intros e He. apply list_elem_of_fmap in He as (r & -> & _).
  unfold binding_io_node. cbn [tag]. by destruct (String.eqb r.1 "request").
Qed.

(** X8: the root carries the four namespace declarations and then the
    service name; its children are the documentation with the given
    text, wsdl:types, wsdl:portType and wsdl:service, and after them,
    for each operation in the order of the mapping, its wsdl:binding
    followed by one wsdl:message per role that has a model. *)
Theorem root_children_follow_the_operations fuel name methods url request documentation tree :
  generate_wsdl classes fuel name methods url request documentation = Ok tree →
  tag tree = "wsdl:definitions" ∧
  attrib tree = nsmap ++ [("name", PyStr name)] ∧
  children tree !! 0 = Some (mkElement "wsdl:documentation" [] [] (Some documentation)) ∧
  map tag (children tree) =
    ["wsdl:documentation"; "wsdl:types"; "wsdl:portType"; "wsdl:service"]
    ++ flat_map (λ item, "wsdl:binding" :: map (λ _, "wsdl:message") (present_roles item.2))
         methods.
Proof.
  intros H. apply generate_wsdl_inv in H as (tags & _ & ->).
  repeat split. cbn [children wsdl_tree map app]. do 4 f_equal.
  induction methods as [|item methods IH]; [reflexivity |].
  cbn [flat_map]. rewrite map_app, IH. f_equal.
  unfold operation_nodes. cbn [map tag binding_node]. f_equal.
  rewrite map_map. reflexivity.
Qed.

(** X9: every operation of the mapping, with or without models, gets
    one portType operation, one port and one binding, in the order of
    the mapping and all three named by the service name followed by the
    operation name; the port is bound to that name, the binding is
    typed by the service name, and the soapAction is the operation
    name alone. *)
Theorem one_operation_port_and_binding_each fuel name methods url request documentation tree :
  generate_wsdl classes fuel name methods url request documentation = Ok tree →
  map (λ e, get e "name") (findall ["wsdl:portType"; "wsdl:operation"] [tree]) =
    map (λ item, Some (PyStr (name +:+ item.1))) methods ∧
  map (λ e, (get e "name", get e "binding")) (findall ["wsdl:service"; "wsdl:port"] [tree]) =
    map (λ item, (Some (PyStr (name +:+ item.1)), Some (PyStr (name +:+ item.1)))) methods ∧
  map (λ e, (get e "name", get e "type")) (findall ["wsdl:binding"] [tree]) =
    map (λ item, (Some (PyStr (name +:+ item.1)), Some (PyStr name))) methods ∧
  map (λ e, get e "soapAction")
      (findall ["wsdl:binding"; "wsdl:operation"; "soap:operation"] [tree]) =
    map (λ item, Some (PyStr item.1)) methods.
Proof.
  intros H. apply generate_wsdl_inv in H as (tags & _ & ->).
  rewrite findall_operations, findall_ports, findall_bindings, findall_soap_operations.
  rewrite !map_map. repeat split.
Qed.

(** X10: for an operation whose roles are written in ASCII, the
    portType operation holds, for each role that has a model and in the
    order of the mapping, a wsdl:input when the role is exactly
    "request" and a wsdl:output for any other role, each with the
    message name made of the operation name and the title-cased role;
    the binding operation holds its soap:operation and then the same
    nodes, each with a literal soap:body. *)
Theorem roles_become_inputs_and_outputs fuel name methods url request documentation tree
    (i : nat) method models :
  generate_wsdl classes fuel name methods url request documentation = Ok tree →
  methods !! i = Some (method, models) →
  forallb (λ role : string * class_id, is_ascii role.1) (present_roles models) = true →
  ∃ operation binding,
    findall ["wsdl:portType"; "wsdl:operation"] [tree] !! i = Some operation ∧
    children operation =
      map (λ role : string * class_id,
             mkElement
               ("wsdl:" +:+ (if String.eqb role.1 "request" then "input" else "output"))
               [("message", PyStr (method +:+ title role.1))] [] None)
          (present_roles models) ∧
    findall ["wsdl:binding"] [tree] !! i = Some binding ∧
    findall ["wsdl:operation"] [binding] =
      [mkElement "wsdl:operation" [("name", PyStr (name +:+ method))]
         (mkElement "soap:operation" [("soapAction", PyStr method)] [] None
          :: map (λ role : string * class_id,
                    mkElement
                      ("wsdl:" +:+ (if String.eqb role.1 "request" then "input" else "output"))
                      [("message", PyStr (method +:+ title role.1))]
                      [mkElement "soap:body" [("use", PyStr "literal")] [] None] None)
                 (present_roles models))
         None].
Proof.
  intros H Hi _. apply generate_wsdl_inv in H as (tags & _ & ->).
  rewrite findall_operations, findall_bindings.
  exists (operation_node name (method, models)), (binding_node name (method, models)).
  rewrite !list_lookup_fmap, Hi. repeat split.
Qed.

(** X11: when the roles that have a model are written in ASCII, the
    wsdl:message nodes are, operation after operation and role after
    role, those of the roles that have a model, each named by the
    operation name followed by the title-cased role; a role without
    model leaves no message. *)
Theorem messages_follow_the_present_roles fuel name methods url request documentation tree :
  generate_wsdl classes fuel name methods url request documentation = Ok tree →
  forallb (λ item : string * list (string * option class_id),
             forallb (λ role : string * class_id, is_ascii role.1) (present_roles item.2))
          methods = true →
  map (λ e, get e "name") (findall ["wsdl:message"] [tree]) =
    flat_map (λ item, map (λ role : string * class_id, Some (PyStr (item.1 +:+ title role.1)))
                          (present_roles item.2))
      methods.
Proof.
  intros H _. apply generate_wsdl_inv in H as (tags & _ & ->).
  rewrite findall_messages.
  induction methods as [|item methods IH]; [reflexivity |].
  cbn [flat_map]. rewrite map_app, IH, map_map. reflexivity.
Qed.

(** X12: every soap:address has the location made of one base, a slash
    and the operation name; the base is the text of the request's URL
    without query and fragment and with all trailing slashes removed,
    so it never ends in a slash, and the [url] argument has no part in
    it. *)
Theorem locations_share_a_base_without_trailing_slash fuel name methods url_argument request
    documentation tree :
  generate_wsdl classes fuel name methods url_argument request documentation = Ok tree →
  ∃ base,
    base = rstrip "/" (URL_str (URL_replace (url request) EmptyString EmptyString)) ∧
    (∀ s, base ≠ s +:+ "/") ∧
    map (λ e, get e "location")
        (findall ["wsdl:service"; "wsdl:port"; "soap:address"] [tree]) =
      map (λ item, Some (PyStr (base +:+ "/" +:+ item.1))) methods.
Proof.
  intros H. apply generate_wsdl_inv in H as (tags & _ & ->).
  eexists. split; [reflexivity |]. split; [apply rstrip_has_no_trailing |].
  change (findall ["wsdl:service"; "wsdl:port"; "soap:address"] ?l)
    with (flat_map (find_children "soap:address") (findall ["wsdl:service"; "wsdl:port"] l)).
  rewrite findall_ports.
  induction methods as [|item methods IH]; [reflexivity |].
  cbn [map flat_map]. rewrite map_app, IH. reflexivity.
Qed.

End FurtherAssemblerProperties.

Section FurtherAssemblerErrors.

Variable classes : class_id → Model.

Lemma generate_tag fuel model field_info e :
  generate_xsd_element classes fuel model field_info = Ok e → tag e = "xs:element".
Proof.
  intros He. apply generate_shaped in He. destruct e as [t a kids tx].
  by destruct He as [-> _].
Qed.

Lemma findall_schema_elements name methods request documentation tags :
  (∀ t, t ∈ tags → tag t = "xs:element") →
  findall ["wsdl:types"; "xs:schema"; "xs:element"]
    [wsdl_tree classes name methods request documentation
       (mkElement "xs:schema" nsmap tags None)] = tags.
Proof.
  intros Htags. cbn [findall flat_map]. rewrite !app_nil_r. unfold find_children at 3.
  cbn [children wsdl_tree].
  rewrite filter_cons_False by discriminate.
  rewrite filter_cons_True by reflexivity.
  rewrite !filter_cons_False by discriminate.
  rewrite operation_nodes_not_tagged by discriminate.
  cbn [flat_map]. rewrite app_nil_r. unfold find_children at 2. cbn [children].
  rewrite filter_cons_True by reflexivity. cbn [filter list_filter flat_map].
  rewrite app_nil_r. unfold find_children. cbn [children].
  by apply filter_tag_all.
Qed.

(** X13: one model class that cannot be generated fails the whole
    document: when the element of a model class that some operation has
    as request or response is not returned, [generate_wsdl] returns no
    tree, whatever the other operations are. *)
Theorem a_failing_model_fails_the_wsdl fuel name methods url_argument request documentation m :
  referenced methods m →
  (∀ t, generate_xsd_element classes fuel (Some m) None ≠ Ok t) →
  ∀ tree, generate_wsdl classes fuel name methods url_argument request documentation ≠ Ok tree.
Proof.
  intros Hm Hfails tree H. apply generate_wsdl_inv in H as (tags & Htags & _).
  assert (m ∈ elements (list_to_set (C := gset class_id) (mentioned methods))) as Hin.
  { rewrite elem_of_elements, elem_of_list_to_set. by apply elem_of_mentioned. }
  apply list_elem_of_lookup in Hin as [i Hi].
  destruct (Forall2_lookup_l _ _ _ _ _ Htags Hi) as (t & _ & Ht).
  by apply (Hfails t).
Qed.

(** X14: the wsdl:part of a role points to its model by the "tag"
    entry of the model's configuration, or the class name, while the
    schema names the element of that model by its [__xml_tag__], or the
    class name: the reference and the definition are read from two
    different places and agree only when those agree. *)
Theorem part_and_schema_read_different_tags fuel name methods url request documentation tree
    method models action m :
  generate_wsdl classes fuel name methods url request documentation = Ok tree →
  (method, models) ∈ methods →
  (action, Some m) ∈ models →
  ∃ part t,
    part ∈ findall ["wsdl:message"; "wsdl:part"] [tree] ∧
    get part "element" =
      Some match model_config_tag (classes m) with
           | Some configured => configured
           | None => PyStr (__name__ (classes m))
           end ∧
    t ∈ findall ["wsdl:types"; "xs:schema"; "xs:element"] [tree] ∧
    generate_xsd_element classes fuel (Some m) None = Ok t ∧
    get t "name" =
      Some match __xml_tag__ (classes m) with
           | Some tagged => tagged
           | None => PyStr (__name__ (classes m))
           end.
Proof.
  intros H Hitem Hrole. apply generate_wsdl_inv in H as (tags & Htags & ->).
  assert (m ∈ elements (list_to_set (C := gset class_id) (mentioned methods))) as Hin.
  { rewrite elem_of_elements, elem_of_list_to_set. apply elem_of_mentioned.
    by exists method, models, action. }
  apply list_elem_of_lookup in Hin as [i Hi].
  destruct (Forall2_lookup_l _ _ _ _ _ Htags Hi) as (t & Hti & Ht).
  eexists _, t. split; [| split; [| split; [| split]]].
  - change (findall ["wsdl:message"; "wsdl:part"] ?l)
      with (flat_map (find_children "wsdl:part") (findall ["wsdl:message"] l)).
    rewrite findall_messages.
    apply list_elem_of_In, in_flat_map.
    exists (message_node classes method (action, m)). split.
    + apply in_flat_map. exists (method, models). split; [by apply list_elem_of_In |].
      apply list_elem_of_In, list_elem_of_fmap. exists (action, m).
      split; [reflexivity | by apply elem_of_present_roles].
    + apply list_elem_of_In. unfold find_children. cbn [children message_node].
      rewrite filter_cons_True by reflexivity. left.
  - reflexivity.
  - rewrite findall_schema_elements.
    + by eapply list_elem_of_lookup_2.
    + intros t' Ht'. apply list_elem_of_lookup in Ht' as [j Hj].
      destruct (Forall2_lookup_r _ _ _ _ _ Htags Hj) as (m' & _ & Hm').
      by eapply generate_tag.
  - exact Ht.
  - rewrite (generate_name _ _ _ _ _ Ht), resolve_name_get. reflexivity.
Qed.

End FurtherAssemblerErrors.

(** ** Serialization *)

Lemma Element_induction (P : Element → Prop) :
  (∀ t a kids tx, Forall P kids → P (mkElement t a kids tx)) → ∀ e, P e.
Proof.
  intros H. fix IH 1. intros [t a kids tx]. apply H.
  induction kids as [|k kids IHkids]; constructor; [apply IH | exact IHkids].
Qed.

Lemma serialize_items_is_Some (items : list (string * pyval)) :
  is_Some (serialize_items items) ↔
  forallb (λ kv, match kv.2 with PyStr _ => true | PyNone => false end) items = true.
Proof.
  unfold is_Some. induction items as [|[k [|v]] items IH]; cbn.
  - naive_solver.
  - naive_solver.
  - rewrite <- IH. destruct (serialize_items items); cbn; naive_solver.
Qed.

Lemma serialize_each_is_Some {A} (serialize : A → option string) (l : list A) :
  is_Some (serialize_each serialize l) ↔ Forall (λ x, is_Some (serialize x)) l.
Proof.
  unfold is_Some. induction l as [|x l IH]; cbn.
  - split; [constructor | by eexists].
  - rewrite Forall_cons, <- IH.
    destruct (serialize x); cbn; [| naive_solver].
    destruct (serialize_each serialize l); cbn; naive_solver.
Qed.

(** The serializer writes a tree exactly when all its values are text. *)
Lemma serialize_xml_is_Some (e : Element) :
  is_Some (_serialize_xml e) ↔ all_values_text e = true.
Proof.
  induction e as [t a kids tx IH] using Element_induction.
  cbn [_serialize_xml all_values_text]. rewrite andb_true_iff, <- serialize_items_is_Some.
  assert (is_Some (serialize_each _serialize_xml kids) ↔ forallb all_values_text kids = true)
    as Hkids.
  { rewrite serialize_each_is_Some, forallb_forall, list.Forall_forall.
    rewrite list.Forall_forall in IH.
    split; intros H x Hx.
    - apply IH; [by apply list_elem_of_In | apply H; by apply list_elem_of_In].
    - apply IH; [done | apply H; by apply list_elem_of_In]. }
  unfold is_Some in *.
  destruct (serialize_items a) as [items|]; cbn [mbind option_bind]; [| naive_solver].
  destruct (text_truthy tx || negb (bool_decide (kids = []))) eqn:E.
  - rewrite <- Hkids. destruct (serialize_each _serialize_xml kids); cbn; naive_solver.
  - apply orb_false_iff in E as [_ E]. apply negb_false_iff, bool_decide_eq_true in E.
    subst kids. naive_solver.
Qed.

Lemma dump_etree_TypeError (e : Element) :
  dump_etree e = TypeError ↔ has_clark_name e = false ∧ all_values_text e = false.
Proof.
  unfold dump_etree. pose proof (serialize_xml_is_Some e) as H. unfold is_Some in H.
  destruct (has_clark_name e); [split; [discriminate | by intros [[=] _]] |].
  destruct (_serialize_xml e) as [s|], (all_values_text e); naive_solver.
Qed.

(** X15: [dump_etree] on a tree of plain names raises TypeError exactly
    when some attribute value of the tree, at any depth, is None, and
    returns text exactly when all of them are text; a tag, a text or a
    missing child never makes it fail. *)
Theorem dump_fails_exactly_on_a_None_value (e : Element) :
  has_clark_name e = false →
  (dump_etree e = TypeError ↔ all_values_text e = false) ∧
  ((∃ s, dump_etree e = Text s) ↔ all_values_text e = true).
Proof.
  intros Hplain. split.
  - rewrite dump_etree_TypeError. naive_solver.
  - unfold dump_etree. rewrite Hplain.
    pose proof (serialize_xml_is_Some e) as H. unfold is_Some in H.
    destruct (_serialize_xml e) as [s|], (all_values_text e); naive_solver.
Qed.

Lemma occurrence_attributes_are_text occurs :
  occurs ∈ occurrence_attributes →
  forallb (λ kv : string * pyval,
             match kv.2 with PyStr _ => true | PyNone => false end) occurs = true
  ∧ existsb (λ kv : string * pyval, is_clark kv.1) occurs = false.
Proof.
  unfold occurrence_attributes. intros H.
  repeat (apply elem_of_cons in H as [-> | H]; [done |]).
  by apply elem_of_nil in H.
Qed.

Section Dump.

Variable classes : class_id → Model.

(** The two forms of a returned element. *)
Lemma generate_form fuel model field_info e :
  generate_xsd_element classes (S fuel) model field_info = Ok e →
  ∃ nm occurs,
    occurs ∈ occurrence_attributes ∧
    ((∃ n, e = mkElement "xs:element"
                 (("name", nm) :: ("type", PyStr ("xs:" +:+ n)) :: occurs) [] None)
     ∨ (∃ cls tags,
          underlying_type model field_info = AnnModel cls ∧
          Forall2 (λ item t, generate_xsd_element classes fuel None (Some item.2) = Ok t)
                  (model_fields (classes cls)) tags ∧
          e = mkElement "xs:element" (("name", nm) :: occurs)
                [mkElement "xs:complexType" []
                   [mkElement "xs:sequence" [] tags None] None] None)).
Proof.
  intros He.
  destruct (underlying_type model field_info) as [| | cls | |] eqn:E.
  3: {
    destruct (generate_model_inv _ _ _ _ _ _ E He) as (tags & Htags & ->).
    destruct (resolve_name_element classes model field_info (AnnModel cls)) as [nm ->].
    unfold append. cbn [tag attrib children text app].
    destruct (cardinality_attrib "xs:element" [("name", nm)]
                [mkElement "xs:complexType" [] [mkElement "xs:sequence" [] tags None] None]
                None field_info eq_refl eq_refl) as (occurs & Hoccurs & ->).
    exists nm, occurs. split; [exact Hoccurs |]. right. by exists cls, tags.
  }
  all: rewrite generate_scalar in He by (intros cls; rewrite E; discriminate).
  all: apply bind_Ok in He as (n & _ & [= <-]).
  all: destruct (resolve_name_element classes model field_info
                   (underlying_type model field_info)) as [nm Hname].
  all: rewrite Hname.
  all: unfold set; cbn [tag attrib children text dict_set String.eqb Ascii.eqb Bool.eqb].
  all: destruct (cardinality_attrib "xs:element"
                   [("name", nm);
                    ("type", PyStr ("xs:" +:+ dict_get PYTHON_XSD_TYPE_MAP n "string"))]
                   [] None field_info eq_refl eq_refl) as (occurs & Hoccurs & ->).
  all: exists nm, occurs; split; [exact Hoccurs |]; left; by eexists.
Qed.

(** A returned element has plain names, and a value that is no text
    only as the name of some xs:element in it. *)
Lemma generated_values fuel :
  ∀ model field_info e,
    generate_xsd_element classes fuel model field_info = Ok e →
    has_clark_name e = false ∧
    (all_values_text e = false ↔
     ∃ d, d ∈ nodes e ∧ tag d = "xs:element" ∧ get d "name" = Some PyNone).
Proof.
  induction fuel as [|fuel IH]; intros model field_info e He; [discriminate |].
  destruct (generate_form _ _ _ _ He)
    as (nm & occurs & Hoccurs & [[n ->] | (cls & tags & _ & Htags & ->)]);
    destruct (occurrence_attributes_are_text _ Hoccurs) as [Ho1 Ho2].
  - split; [cbn; by rewrite Ho2 |].
    cbn [all_values_text forallb nodes flat_map snd]. rewrite Ho1. split.
    + intros H. eexists. split; [left |]. split; [reflexivity |].
      cbn. by destruct nm.
    + intros (d & Hd & _ & Hname). apply list_elem_of_singleton in Hd as ->.
      cbn in Hname. injection Hname as ->. reflexivity.
  - assert (∀ t, t ∈ tags →
              has_clark_name t = false ∧
              (all_values_text t = false ↔
               ∃ d, d ∈ nodes t ∧ tag d = "xs:element" ∧ get d "name" = Some PyNone))
      as Htag.
    { intros t Ht. apply list_elem_of_lookup in Ht as [i Hi].
      destruct (Forall2_lookup_r _ _ _ _ _ Htags Hi) as (item & _ & Hgen).
      by eapply IH. }
    assert (existsb has_clark_name tags = false) as Hclark.
    { apply not_true_is_false. intros H. apply existsb_exists in H as (t & Ht & Hc).
      apply list_elem_of_In in Ht. destruct (Htag t Ht) as [Hf _]. congruence. }
    split; [cbn; by rewrite Ho2, Hclark |].
    cbn [all_values_text forallb nodes flat_map snd app andb].
    rewrite Ho1, !andb_true_r, !app_nil_r. split.
    + intros H. apply andb_false_iff in H as [H | H].
      * eexists. split; [left |]. split; [reflexivity |]. cbn. by destruct nm.
      * apply not_true_iff_false in H.
        assert (∃ t, t ∈ tags ∧ all_values_text t = false) as (t & Ht & Hv).
        { clear -H. induction tags as [|t tags IHt]; [by destruct H |].
          cbn in H. destruct (all_values_text t) eqn:Et.
          - destruct IHt as (t' & Ht' & Hv'); [exact H |]. exists t'. split; [by right | done].
          - exists t. split; [left | done]. }
        apply (Htag t Ht) in Hv as (d & Hd & Hd').
        exists d. split; [| exact Hd']. do 3 (apply elem_of_cons; right).
        apply list_elem_of_In, in_flat_map. exists t. split; by apply list_elem_of_In.
    + intros (d & Hd & Htagd & Hname).
      apply elem_of_cons in Hd as [-> | Hd].
      { cbn in Hname. injection Hname as ->. reflexivity. }
      apply elem_of_cons in Hd as [-> | Hd]; [discriminate Htagd |].
      apply elem_of_cons in Hd as [-> | Hd]; [discriminate Htagd |].
      apply list_elem_of_In, in_flat_map in Hd as (t & Ht & Hd).
      apply list_elem_of_In in Ht, Hd.
      apply andb_false_iff. right. apply not_true_iff_false. intros Hall.
      rewrite forallb_forall in Hall. specialize (Hall t (proj1 (list_elem_of_In _ _) Ht)).
      assert (all_values_text t = false) by (apply (Htag t Ht); eauto). congruence.
Qed.

(** X16: [dump_etree] on an element that [generate_xsd_element] has
    returned never meets a name it cannot write, and raises TypeError
    exactly when the name resolved for some xs:element of it, the
    element itself or a nested field, is None; the type and the
    occurrence attributes are always text. *)
Theorem dump_of_a_generated_element fuel model field_info e :
  generate_xsd_element classes fuel model field_info = Ok e →
  dump_etree e ≠ ClarkNotation ∧
  (dump_etree e = TypeError ↔
   ∃ d, d ∈ nodes e ∧ tag d = "xs:element" ∧ get d "name" = Some PyNone).
Proof.
  intros He. destruct (generated_values _ _ _ _ He) as [Hplain Hvalues].
  split.
  - unfold dump_etree. rewrite Hplain. by destruct (_serialize_xml e).
  - rewrite dump_etree_TypeError, <- Hvalues. naive_solver.
Qed.

(** X17: an XML entity descriptor without tag path and without alias,
    on a field of an ordinary class, yields an element whose name is
    None and not "Unknown", and [dump_etree] raises TypeError on it. *)
Theorem untagged_entity_field_cannot_be_dumped fuel f n :
  FieldInfo.is_xml_entity f = true →
  truthy (FieldInfo.path f) = false →
  FieldInfo.alias f = PyNone →
  FieldInfo.annotation f = AnnClass n →
  ∃ e, generate_xsd_element classes (S fuel) None (Some f) = Ok e ∧
       get e "name" = Some PyNone ∧
       dump_etree e = TypeError.
Proof.
  intros Hentity Hpath Halias Hann.
  destruct (generate_total classes (S fuel) 0 None (Some f)) as [e He]; [| lia |].
  { cbn. by rewrite Hann. }
  assert (get e "name" = Some PyNone) as Hname.
  { rewrite (generate_name _ _ _ _ _ He), resolve_name_get.
    rewrite Hentity. unfold py_or. by rewrite Hpath, Halias. }
  exists e. split; [exact He |]. split; [exact Hname |].
  destruct (generated_values _ _ _ _ He) as [Hplain Hvalues].
  apply dump_etree_TypeError. split; [exact Hplain |].
  apply Hvalues. exists e. split; [destruct e; left |].
  split; [by eapply generate_tag | exact Hname].
Qed.

End Dump.

Section DumpWsdl.

Variable classes : class_id → Model.

Lemma plain_and_text_map {A} (g : A → Element) (l : list A) :
  (∀ x, has_clark_name (g x) = false ∧ all_values_text (g x) = true) →
  existsb has_clark_name (map g l) = false ∧ forallb all_values_text (map g l) = true.
Proof.
  intros Hg. induction l as [|x l [IH1 IH2]]; [done |].
  destruct (Hg x) as [H1 H2]. cbn [map existsb forallb]. by rewrite H1, H2, IH1, IH2.
Qed.

Lemma io_node_plain method role :
  has_clark_name (io_node method role) = false ∧
  all_values_text (io_node method role) = true.
Proof. unfold io_node. by destruct (String.eqb role.1 "request"). Qed.

Lemma binding_io_node_plain method role :
  has_clark_name (binding_io_node method role) = false ∧
  all_values_text (binding_io_node method role) = true.
Proof. unfold binding_io_node. by destruct (String.eqb role.1 "request"). Qed.

Lemma operation_node_plain name item :
  has_clark_name (operation_node name item) = false ∧
  all_values_text (operation_node name item) = true.
Proof.
  destruct (plain_and_text_map (io_node item.1) (present_roles item.2)
              (io_node_plain item.1)) as [H1 H2].
  unfold operation_node. cbn [has_clark_name all_values_text]. by rewrite H1, H2.
Qed.

Lemma binding_node_plain name item :
  has_clark_name (binding_node name item) = false ∧
  all_values_text (binding_node name item) = true.
Proof.
  destruct (plain_and_text_map (binding_io_node item.1) (present_roles item.2)
              (binding_io_node_plain item.1)) as [H1 H2].
  unfold binding_node. cbn [has_clark_name all_values_text existsb forallb].
  by rewrite H1, H2.
Qed.

Lemma port_node_plain name request item :
  has_clark_name (port_node name request item) = false ∧
  all_values_text (port_node name request item) = true.
Proof. done. Qed.

Lemma message_nodes_values method roles :
  existsb has_clark_name (map (message_node classes method) roles) = false ∧
  (forallb all_values_text (map (message_node classes method) roles) = false ↔
   ∃ cls, cls ∈ roles.*2 ∧ model_config_tag (classes cls) = Some PyNone).
Proof.
  induction roles as [|role roles [IH1 IH2]].
  - split; [done |]. split; [done |]. intros (cls & Hcls & _). by apply elem_of_nil in Hcls.
  - split; [cbn [map existsb]; by rewrite IH1 |].
    cbn [map forallb fmap list_fmap]. rewrite andb_false_iff, IH2.
    unfold message_node at 1. cbn [all_values_text forallb snd].
    split.
    + intros [H | (cls & Hcls & H)].
      * exists role.2. split; [left |].
        by destruct (model_config_tag (classes role.2)) as [[] |].
      * exists cls. split; [by right | done].
    + intros (cls & Hcls & H). apply elem_of_cons in Hcls as [-> | Hcls].
      * left. by rewrite H.
      * right. by exists cls.
Qed.

Lemma operation_nodes_values name methods :
  existsb has_clark_name (flat_map (operation_nodes classes name) methods) = false ∧
  (forallb all_values_text (flat_map (operation_nodes classes name) methods) = false ↔
   ∃ cls, cls ∈ mentioned methods ∧ model_config_tag (classes cls) = Some PyNone).
Proof.
  induction methods as [|item methods [IH1 IH2]].
  - split; [done |]. split; [done |]. intros (cls & Hcls & _). by apply elem_of_nil in Hcls.
  - destruct (message_nodes_values item.1 (present_roles item.2)) as [Hm1 Hm2].
    destruct (binding_node_plain name item) as [Hb1 Hb2].
    unfold mentioned in *. cbn [flat_map]. unfold operation_nodes at 1 3.
    cbn [app existsb forallb]. rewrite existsb_app, forallb_app, Hb1, Hb2, Hm1, IH1.
    split; [done |]. cbn [andb]. rewrite andb_false_iff, Hm2, IH2.
    split.
    + intros [(cls & Hcls & H) | (cls & Hcls & H)]; exists cls; (split; [| done]);
        apply elem_of_app; [by left | by right].
    + intros (cls & Hcls & H). apply elem_of_app in Hcls as [Hcls | Hcls]; [left | right];
        by exists cls.
Qed.

(** The names and the values of the finished tree. *)
Lemma wsdl_tree_values name methods request documentation tags :
  existsb has_clark_name tags = false →
  has_clark_name (wsdl_tree classes name methods request documentation
                    (mkElement "xs:schema" nsmap tags None)) = false ∧
  (all_values_text (wsdl_tree classes name methods request documentation
                      (mkElement "xs:schema" nsmap tags None)) = false ↔
   (∃ cls, cls ∈ mentioned methods ∧ model_config_tag (classes cls) = Some PyNone)
   ∨ forallb all_values_text tags = false).
Proof.
  intros Htags.
  destruct (operation_nodes_values name methods) as [Ho1 Ho2].
  destruct (plain_and_text_map (operation_node name) methods (operation_node_plain name))
    as [Hp1 Hp2].
  destruct (plain_and_text_map (port_node name request) methods
              (port_node_plain name request)) as [Hs1 Hs2].
  unfold wsdl_tree.
  cbn [has_clark_name all_values_text existsb forallb nsmap app snd fst is_clark orb andb].
  rewrite Htags, Hp1, Hp2, Hs1, Hs2, Ho1. split; [done |].
  cbn [andb orb]. rewrite andb_true_r, andb_false_iff, Ho2. tauto.
Qed.

(** X18: [dump_etree] on the tree that [generate_wsdl] has returned never
    meets a name it cannot write, and raises TypeError in exactly two
    cases: the model configuration of some model of the operations maps
    "tag" to None, which becomes the element attribute of a wsdl:part;
    or the schema element of some model of the operations holds an
    xs:element whose resolved name is None. Service name, method names,
    roles, URL and documentation never make serialization fail. *)
Theorem dump_of_the_wsdl_tree fuel name methods url_argument request documentation tree :
  generate_wsdl classes fuel name methods url_argument request documentation = Ok tree →
  dump_etree tree ≠ ClarkNotation ∧
  (dump_etree tree = TypeError ↔
   (∃ cls, cls ∈ mentioned methods ∧ model_config_tag (classes cls) = Some PyNone)
   ∨ (∃ cls e d, cls ∈ mentioned methods ∧
        generate_xsd_element classes fuel (Some cls) None = Ok e ∧
        d ∈ nodes e ∧ tag d = "xs:element" ∧ get d "name" = Some PyNone)).
Proof.
  intros H. apply generate_wsdl_inv in H as (tags & Htags & ->).
  assert (existsb has_clark_name tags = false) as Hplain.
  { apply not_true_is_false. intros H. apply existsb_exists in H as (t & Ht & Hc).
    apply list_elem_of_In, list_elem_of_lookup in Ht as [i Hi].
    destruct (Forall2_lookup_r _ _ _ _ _ Htags Hi) as (m & _ & Hgen).
    destruct (generated_values _ _ _ _ _ Hgen) as [Hf _]. congruence. }
  destruct (wsdl_tree_values name methods request documentation tags Hplain)
    as [Hclark Hvalues].
  split.
  { unfold dump_etree. rewrite Hclark. by destruct (_serialize_xml _). }
  rewrite dump_etree_TypeError, Hvalues. split.
  - intros [_ [Hcls | Hschema]]; [by left | right].
    apply not_true_iff_false in Hschema.
    assert (∃ t, t ∈ tags ∧ all_values_text t = false) as (t & Ht & Hv).
    { clear -Hschema. induction tags as [|t tags IHt]; [by destruct Hschema |].
      cbn in Hschema. destruct (all_values_text t) eqn:Et.
      - destruct IHt as (t' & Ht' & Hv'); [exact Hschema |].
        exists t'. split; [by right | done].
      - exists t. split; [left | done]. }
    apply list_elem_of_lookup in Ht as [i Hi].
    destruct (Forall2_lookup_r _ _ _ _ _ Htags Hi) as (m & Hm & Hgen).
    apply list_elem_of_lookup_2, elem_of_elements, elem_of_list_to_set in Hm.
    destruct (generated_values _ _ _ _ _ Hgen) as [_ Hd].
    apply Hd in Hv as (d & Hd1 & Hd2 & Hd3). by exists m, t, d.
  - intros Hcase. split; [exact Hclark |].
    destruct Hcase as [Hcls | (cls & e & d & Hcls & Hgen & Hd)]; [by left | right].
    assert (cls ∈ elements (list_to_set (C := gset class_id) (mentioned methods))) as Hin
      by by apply elem_of_elements, elem_of_list_to_set.
    apply list_elem_of_lookup in Hin as [i Hi].
    destruct (Forall2_lookup_l _ _ _ _ _ Htags Hi) as (t & Ht & Hgen').
    rewrite Hgen in Hgen'. injection Hgen' as <-.
    apply not_true_iff_false. intros Hall. rewrite forallb_forall in Hall.
    specialize (Hall e (proj1 (list_elem_of_In _ _) (list_elem_of_lookup_2 _ _ _ Ht))).
    destruct (generated_values _ _ _ _ _ Hgen) as [_ Hv].
    assert (all_values_text e = false) by (apply Hv; eauto). congruence.
Qed.

End DumpWsdl.

(** ** The further properties on the sample inputs *)

Lemma occurrence_attributes_of_an_element_at_sample :
  ∃ e,
    generate_xsd_element sample_classes 1 None (Some empty_list_field) = Ok e ∧
    (get e "minOccurs" = Some (PyStr "0") ∨ get e "minOccurs" = None) ∧
    (get e "minOccurs" ≠ None ↔
     ∃ f, Some empty_list_field = Some f ∧
          (isinstance_list (FieldInfo.annotation f) = true ∨
           ∃ v, FieldInfo.default f = Default v)) ∧
    (get e "maxOccurs" = Some (PyStr "unbounded") ∨ get e "maxOccurs" = None) ∧
    (get e "maxOccurs" ≠ None ↔
     ∃ f, Some empty_list_field = Some f ∧ isinstance_list (FieldInfo.annotation f) = true).
Proof.
  eexists. split; [vm_compute; reflexivity |].
  apply (occurrence_attributes_of_an_element sample_classes 1 None (Some empty_list_field)).
  vm_compute; reflexivity.
Defined.

Lemma repeated_branch_needs_the_empty_list_at_sample :
  ∃ e,
    generate_xsd_element sample_classes 1 None (Some empty_list_field) = Ok e ∧
    get e "maxOccurs" ≠ None ∧
    FieldInfo.annotation empty_list_field = AnnListObj [] ∧
    get e "type" = Some (PyStr "xs:string") ∧
    children e = [].
Proof.
  eexists. split; [vm_compute; reflexivity |]. split; [vm_compute; discriminate |].
  apply (repeated_branch_needs_the_empty_list sample_classes 1 empty_list_field);
    [vm_compute; reflexivity | vm_compute; discriminate].
Defined.

Lemma generated_element_is_well_shaped_at_sample :
  ∃ e,
    generate_xsd_element sample_classes 3 (Some 3%positive) None = Ok e ∧ xsd_shaped e.
Proof.
  eexists. split; [vm_compute; reflexivity |].
  apply (generated_element_is_well_shaped sample_classes 3 (Some 3%positive) None).
  vm_compute; reflexivity.
Defined.

Lemma nested_model_is_inlined_at_sample :
  FieldInfo.annotation
    (FieldInfo.mk false PyNone (PyStr "first") None (AnnModel 1%positive) PydanticUndefined) =
    AnnModel 1%positive ∧
  ∃ e_m,
    generate_xsd_element sample_classes 2 (Some 1%positive) None = Ok e_m ∧
    ∃ e_f,
      generate_xsd_element sample_classes 2 None
        (Some (FieldInfo.mk false PyNone (PyStr "first") None (AnnModel 1%positive)
                 PydanticUndefined)) = Ok e_f ∧
      children e_f = children e_m ∧
      get e_f "type" = None.
Proof.
  split; [reflexivity |]. eexists. split; [vm_compute; reflexivity |].
  apply (nested_model_is_inlined sample_classes 2
           (FieldInfo.mk false PyNone (PyStr "first") None (AnnModel 1%positive)
              PydanticUndefined) 1%positive);
    [reflexivity | vm_compute; reflexivity].
Defined.

Lemma first_failing_field_aborts_the_model_at_sample :
  model_fields (faulty_classes 1%positive) =
    [("a", int_field (PyStr "a"))] ++ ("value", nameless_field) :: [] ∧
  Forall (λ i : string * FieldInfo.t,
            ∃ t, generate_xsd_element faulty_classes 1 None (Some i.2) = Ok t)
         [("a", int_field (PyStr "a"))] ∧
  generate_xsd_element faulty_classes 1 None (Some nameless_field) =
    Raise (AttributeError "__name__") ∧
  generate_xsd_element faulty_classes 2 (Some 1%positive) None =
    Raise (AttributeError "__name__").
Proof.
  assert (Forall (λ i : string * FieldInfo.t,
                    ∃ t, generate_xsd_element faulty_classes 1 None (Some i.2) = Ok t)
                 [("a", int_field (PyStr "a"))]) as Hpre.
  { constructor; [eexists; vm_compute; reflexivity | constructor]. }
  split; [reflexivity |]. split; [exact Hpre |]. split; [vm_compute; reflexivity |].
  apply (first_failing_field_aborts_the_model faulty_classes 1 1%positive
           [("a", int_field (PyStr "a"))] ("value", nameless_field) []
           (AttributeError "__name__"));
    [reflexivity | exact Hpre | vm_compute; reflexivity].
Defined.

Lemma schema_has_one_child_per_entry_at_sample :
  (∀ m, m ∈ [3%positive; 1%positive] → well_formed sample_classes 2 (AnnModel m) = true) ∧
  2 < 3 ∧
  ∃ tags,
    generate_xsd_schema_etree sample_classes 3 [3%positive; 1%positive] =
      Ok (mkElement "xs:schema" nsmap tags None) ∧
    Forall2 (λ m t, generate_xsd_element sample_classes 3 (Some m) None = Ok t)
      [3%positive; 1%positive] tags.
Proof.
  assert (∀ m, m ∈ [3%positive; 1%positive] →
               well_formed sample_classes 2 (AnnModel m) = true) as Hwf.
  { intros m Hm. repeat (apply elem_of_cons in Hm as [-> | Hm]; [reflexivity |]).
    by apply elem_of_nil in Hm. }
  split; [exact Hwf |]. split; [lia |].
  apply (schema_has_one_child_per_entry sample_classes 2 3 [3%positive; 1%positive]);
    [exact Hwf | lia].
Defined.

Lemma root_children_follow_the_operations_at_sample :
  ∃ tree,
    generate_wsdl sample_classes 3 "Calculator" sample_methods "http://host/svc"
      calculator_request "Sample service" = Ok tree ∧
    tag tree = "wsdl:definitions" ∧
    attrib tree = nsmap ++ [("name", PyStr "Calculator")] ∧
    children tree !! 0 =
      Some (mkElement "wsdl:documentation" [] [] (Some "Sample service")) ∧
    map tag (children tree) =
      ["wsdl:documentation"; "wsdl:types"; "wsdl:portType"; "wsdl:service"]
      ++ flat_map (λ item : string * list (string * option class_id),
                     "wsdl:binding" :: map (λ _, "wsdl:message") (present_roles item.2))
           sample_methods.
Proof.
  eexists. split; [vm_compute; reflexivity |].
  apply (root_children_follow_the_operations sample_classes 3 "Calculator" sample_methods
           "http://host/svc" calculator_request "Sample service").
  vm_compute; reflexivity.
Defined.

Lemma one_operation_port_and_binding_each_at_sample :
  ∃ tree,
    generate_wsdl sample_classes 3 "Calculator" sample_methods "http://host/svc"
      calculator_request "Sample service" = Ok tree ∧
    map (λ e, get e "name") (findall ["wsdl:portType"; "wsdl:operation"] [tree]) =
      map (λ item : string * list (string * option class_id),
             Some (PyStr ("Calculator" +:+ item.1))) sample_methods ∧
    map (λ e, (get e "name", get e "binding"))
        (findall ["wsdl:service"; "wsdl:port"] [tree]) =
      map (λ item : string * list (string * option class_id),
             (Some (PyStr ("Calculator" +:+ item.1)),
              Some (PyStr ("Calculator" +:+ item.1)))) sample_methods ∧
    map (λ e, (get e "name", get e "type")) (findall ["wsdl:binding"] [tree]) =
      map (λ item : string * list (string * option class_id),
             (Some (PyStr ("Calculator" +:+ item.1)), Some (PyStr "Calculator")))
          sample_methods ∧
    map (λ e, get e "soapAction")
        (findall ["wsdl:binding"; "wsdl:operation"; "soap:operation"] [tree]) =
      map (λ item : string * list (string * option class_id), Some (PyStr item.1))
          sample_methods.
Proof.
  eexists. split; [vm_compute; reflexivity |].
  apply (one_operation_port_and_binding_each sample_classes 3 "Calculator" sample_methods
           "http://host/svc" calculator_request "Sample service").
  vm_compute; reflexivity.
Defined.

Lemma roles_become_inputs_and_outputs_at_sample :
  ∃ tree,
    generate_wsdl sample_classes 3 "Calculator" sample_methods "http://host/svc"
      calculator_request "Sample service" = Ok tree ∧
    sample_methods !! 0 =
      Some ("Notify", [("request", Some 3%positive); ("response", None)]) ∧
    forallb (λ role : string * class_id, is_ascii role.1)
            (present_roles [("request", Some 3%positive); ("response", None)]) = true ∧
    ∃ operation binding,
      findall ["wsdl:portType"; "wsdl:operation"] [tree] !! 0 = Some operation ∧
      children operation =
        map (λ role : string * class_id,
               mkElement
                 ("wsdl:" +:+ (if String.eqb role.1 "request" then "input" else "output"))
                 [("message", PyStr ("Notify" +:+ title role.1))] [] None)
            (present_roles [("request", Some 3%positive); ("response", None)]) ∧
      findall ["wsdl:binding"] [tree] !! 0 = Some binding ∧
      findall ["wsdl:operation"] [binding] =
        [mkElement "wsdl:operation" [("name", PyStr ("Calculator" +:+ "Notify"))]
           (mkElement "soap:operation" [("soapAction", PyStr "Notify")] [] None
            :: map (λ role : string * class_id,
                      mkElement
                        ("wsdl:"
                         +:+ (if String.eqb role.1 "request" then "input" else "output"))
                        [("message", PyStr ("Notify" +:+ title role.1))]
                        [mkElement "soap:body" [("use", PyStr "literal")] [] None] None)
                   (present_roles [("request", Some 3%positive); ("response", None)]))
           None].
Proof.
  eexists. split; [vm_compute; reflexivity |]. split; [reflexivity |].
  split; [reflexivity |].
  apply (roles_become_inputs_and_outputs sample_classes 3 "Calculator" sample_methods
           "http://host/svc" calculator_request "Sample service" _ 0 "Notify"
           [("request", Some 3%positive); ("response", None)]);
    [vm_compute; reflexivity | reflexivity | reflexivity].
Defined.

Lemma messages_follow_the_present_roles_at_sample :
  ∃ tree,
    generate_wsdl sample_classes 3 "Calculator" sample_methods "http://host/svc"
      calculator_request "Sample service" = Ok tree ∧
    forallb (λ item : string * list (string * option class_id),
               forallb (λ role : string * class_id, is_ascii role.1)
                       (present_roles item.2))
            sample_methods = true ∧
    map (λ e, get e "name") (findall ["wsdl:message"] [tree]) =
      flat_map (λ item : string * list (string * option class_id),
                  map (λ role : string * class_id, Some (PyStr (item.1 +:+ title role.1)))
                      (present_roles item.2))
        sample_methods.
Proof.
  eexists. split; [vm_compute; reflexivity |]. split; [reflexivity |].
  apply (messages_follow_the_present_roles sample_classes 3 "Calculator" sample_methods
           "http://host/svc" calculator_request "Sample service");
    [vm_compute; reflexivity | reflexivity].
Defined.

Lemma locations_share_a_base_at_sample :
  ∃ tree,
    generate_wsdl sample_classes 3 "Calculator" sample_methods "http://other/"
      {| url := {| _url := "http://host/svc/?x=1#frag" |} |} "Sample service" = Ok tree ∧
    ∃ base,
      base = rstrip "/" (URL_str (URL_replace {| _url := "http://host/svc/?x=1#frag" |}
                                    EmptyString EmptyString)) ∧
      (∀ s, base ≠ s +:+ "/") ∧
      map (λ e, get e "location")
          (findall ["wsdl:service"; "wsdl:port"; "soap:address"] [tree]) =
        map (λ item : string * list (string * option class_id),
               Some (PyStr (base +:+ "/" +:+ item.1))) sample_methods.
Proof.
  eexists. split; [vm_compute; reflexivity |].
  apply (locations_share_a_base_without_trailing_slash sample_classes 3 "Calculator"
           sample_methods "http://other/"
           {| url := {| _url := "http://host/svc/?x=1#frag" |} |} "Sample service").
  vm_compute; reflexivity.
Defined.

Lemma part_and_schema_read_different_tags_at_sample :
  ∃ tree,
    generate_wsdl faulty_classes 2 "Shop"
      [("Place", [("request", Some 2%positive); ("response", Some 3%positive)])]
      "http://host/svc" calculator_request "Sample service" = Ok tree ∧
    ("Place", [("request", Some 2%positive); ("response", Some 3%positive)])
      ∈ [("Place", [("request", Some 2%positive); ("response", Some 3%positive)])] ∧
    ("request", Some 2%positive)
      ∈ [("request", Some 2%positive); ("response", Some 3%positive)] ∧
    ∃ part t,
      part ∈ findall ["wsdl:message"; "wsdl:part"] [tree] ∧
      get part "element" =
        Some match model_config_tag (faulty_classes 2%positive) with
             | Some configured => configured
             | None => PyStr (__name__ (faulty_classes 2%positive))
             end ∧
      t ∈ findall ["wsdl:types"; "xs:schema"; "xs:element"] [tree] ∧
      generate_xsd_element faulty_classes 2 (Some 2%positive) None = Ok t ∧
      get t "name" =
        Some match __xml_tag__ (faulty_classes 2%positive) with
             | Some tagged => tagged
             | None => PyStr (__name__ (faulty_classes 2%positive))
             end.
Proof.
  eexists. split; [vm_compute; reflexivity |].
  split; [apply elem_of_cons; by left |]. split; [apply elem_of_cons; by left |].
  apply (part_and_schema_read_different_tags faulty_classes 2 "Shop"
           [("Place", [("request", Some 2%positive); ("response", Some 3%positive)])]
           "http://host/svc" calculator_request "Sample service" _
           "Place" [("request", Some 2%positive); ("response", Some 3%positive)]
           "request" 2%positive);
    [vm_compute; reflexivity | apply elem_of_cons; by left | apply elem_of_cons; by left].
Defined.

Lemma dump_fails_exactly_on_a_None_value_at_sample :
  has_clark_name
    (mkElement "xs:schema" nsmap [mkElement "xs:element" [("name", PyNone)] [] None] None) =
    false ∧
  (dump_etree
     (mkElement "xs:schema" nsmap [mkElement "xs:element" [("name", PyNone)] [] None] None) =
     TypeError ↔
   all_values_text
     (mkElement "xs:schema" nsmap [mkElement "xs:element" [("name", PyNone)] [] None] None) =
     false) ∧
  ((∃ s, dump_etree
           (mkElement "xs:schema" nsmap [mkElement "xs:element" [("name", PyNone)] [] None]
              None) = Text s) ↔
   all_values_text
     (mkElement "xs:schema" nsmap [mkElement "xs:element" [("name", PyNone)] [] None] None) =
     true).
Proof.
  split; [reflexivity |].
  apply (dump_fails_exactly_on_a_None_value
           (mkElement "xs:schema" nsmap [mkElement "xs:element" [("name", PyNone)] [] None]
              None)).
  reflexivity.
Defined.

Lemma dump_of_a_generated_element_at_sample :
  ∃ e,
    generate_xsd_element faulty_classes 2 (Some 3%positive) None = Ok e ∧
    dump_etree e ≠ ClarkNotation ∧
    (dump_etree e = TypeError ↔
     ∃ d, d ∈ nodes e ∧ tag d = "xs:element" ∧ get d "name" = Some PyNone).
Proof.
  eexists. split; [vm_compute; reflexivity |].
  apply (dump_of_a_generated_element faulty_classes 2 (Some 3%positive) None).
  vm_compute; reflexivity.
Defined.

Lemma untagged_entity_field_cannot_be_dumped_at_sample :
  FieldInfo.is_xml_entity (int_field PyNone) = true ∧
  truthy (FieldInfo.path (int_field PyNone)) = false ∧
  FieldInfo.alias (int_field PyNone) = PyNone ∧
  FieldInfo.annotation (int_field PyNone) = AnnClass "int" ∧
  ∃ e, generate_xsd_element faulty_classes 1 None (Some (int_field PyNone)) = Ok e ∧
       get e "name" = Some PyNone ∧
       dump_etree e = TypeError.
Proof.
  repeat (split; [reflexivity |]).
  apply (untagged_entity_field_cannot_be_dumped faulty_classes 0 (int_field PyNone) "int");
    reflexivity.
Defined.

Lemma dump_of_the_wsdl_tree_at_sample :
  ∃ tree,
    generate_wsdl faulty_classes 2 "Shop"
      [("Place", [("request", Some 2%positive); ("response", Some 3%positive)])]
      "http://host/svc" calculator_request "Sample service" = Ok tree ∧
    dump_etree tree ≠ ClarkNotation ∧
    (dump_etree tree = TypeError ↔
     (∃ cls,
        cls ∈ mentioned
                [("Place", [("request", Some 2%positive); ("response", Some 3%positive)])] ∧
        model_config_tag (faulty_classes cls) = Some PyNone)
     ∨ (∃ cls e d,
          cls ∈ mentioned
                  [("Place", [("request", Some 2%positive); ("response", Some 3%positive)])] ∧
          generate_xsd_element faulty_classes 2 (Some cls) None = Ok e ∧
          d ∈ nodes e ∧ tag d = "xs:element" ∧ get d "name" = Some PyNone)).
Proof.
  eexists. split; [vm_compute; reflexivity |].
  apply (dump_of_the_wsdl_tree faulty_classes 2 "Shop"
           [("Place", [("request", Some 2%positive); ("response", Some 3%positive)])]
           "http://host/svc" calculator_request "Sample service").
  vm_compute; reflexivity.
Defined.

Lemma a_failing_model_fails_the_wsdl_at_sample :
  referenced [("Place", [("request", Some 2%positive); ("response", Some 1%positive)])]
    1%positive ∧
  (∀ t, generate_xsd_element faulty_classes 2 (Some 1%positive) None ≠ Ok t) ∧
  ∀ tree,
    generate_wsdl faulty_classes 2 "Shop"
      [("Place", [("request", Some 2%positive); ("response", Some 1%positive)])]
      "http://host/svc" calculator_request "Sample service" ≠ Ok tree.
Proof.
  assert (referenced
            [("Place", [("request", Some 2%positive); ("response", Some 1%positive)])]
            1%positive) as Href.
  { exists "Place", [("request", Some 2%positive); ("response", Some 1%positive)], "response".
    split; [apply elem_of_cons; by left |].
    apply elem_of_cons; right. apply elem_of_cons; by left. }
  assert (∀ t, generate_xsd_element faulty_classes 2 (Some 1%positive) None ≠ Ok t) as Hfails.
  { intros t. vm_compute. discriminate. }
  split; [exact Href |]. split; [exact Hfails |].
  apply (a_failing_model_fails_the_wsdl faulty_classes 2 "Shop"
           [("Place", [("request", Some 2%positive); ("response", Some 1%positive)])]
           "http://host/svc" calculator_request "Sample service" 1%positive);
    [exact Href | exact Hfails].
Defined.
